(** * deepseek-worker: the GraphQL chat proxy, embedded and verified

    The repository holds several revisions of one Cloudflare Worker
    ([src/index.js], and two further revisions of the same file).  Each
    revision that the specification draws on is embedded in a module of its
    own:

    - [Part001]  : the revision with [envCheck] (second document of
                   [src/unnamed/part_001]);
    - [Part000]  : the revision reading [context.DEEPSEEK_API_KEY]
                   ([src/unnamed/part_000]);
    - [IndexJs]  : the generic [AI_API_URL] revision (first document of
                   [src/src/index.js]).

    The two other documents of those files (a revision that reads
    [request.cf.env], and one that calls the OpenAI SDK) are left out.

    JavaScript values are an inductive type, the effects of a resolver
    (console output, the outbound [fetch], [Date.now()]) are the nodes of a
    command tree, and a [World] answers them. *)

From Stdlib Require Import ZArith QArith.
From stdpp Require Import gmap strings list pretty.

Set Warnings "-register-all".
Open Scope string_scope.

(** ** JavaScript values, as far as the worker handles them *)

Module JS.

(** The values [response.json()] can produce, plus [undefined].  Numbers are
    rationals: the worker only tests them against zero and passes literals
    through. *)
Inductive value : Type :=
| VUndefined
| VNull
| VBool (b : bool)
| VNum (q : Q)
| VStr (s : string)
| VArr (items : list value)
| VObj (fields : list (string * value)).

(** [!!v] *)
Definition truthy (v : value) : bool :=
  match v with
  | VUndefined | VNull => false
  | VBool b => b
  | VNum q => negb (Qeq_bool q 0)
  | VStr s => negb (String.eqb s "")
  | VArr _ | VObj _ => true
  end.

(** [a === b] where at least one side is a primitive; two object references
    are never compared by the worker. *)
Definition strict_equals (a b : value) : bool :=
  match a, b with
  | VUndefined, VUndefined | VNull, VNull => true
  | VBool x, VBool y => Bool.eqb x y
  | VNum x, VNum y => Qeq_bool x y
  | VStr x, VStr y => String.eqb x y
  | _, _ => false
  end.

(** Thrown values.  [TypeError] and [SyntaxError] come from the runtime. *)
Inductive exn : Type :=
| Error (msg : string)
| TypeError (msg : string)
| SyntaxError (msg : string).

(** [error.message] *)
Definition message_of (e : exn) : string :=
  match e with Error m | TypeError m | SyntaxError m => m end.

Inductive result (A : Type) : Type :=
| Ok (a : A)
| Err (e : exn).
Arguments Ok {A} a.
Arguments Err {A} e.

#[global] Instance result_ret : MRet result := λ A a, Ok a.
#[global] Instance result_bind : MBind result := λ A B f r,
  match r with Ok a => f a | Err e => Err e end.

(** The message V8 gives when a property of [undefined] or [null] is read. *)
Definition cannot_read (what key : string) : exn :=
  TypeError ("Cannot read properties of " +:+ what +:+ " (reading '" +:+ key +:+ "')").

Definition not_a_function (what : string) : exn :=
  TypeError (what +:+ " is not a function").

(** Own-property lookup in a parsed JSON object. *)
Fixpoint assoc (key : string) (fields : list (string * value)) : option value :=
  match fields with
  | [] => None
  | (k, v) :: rest => if String.eqb key k then Some v else assoc key rest
  end.

(** [v.key] for an identifier [key] that is neither an array index nor a
    method of a prototype ([choices], [message], [content], [length], ...). *)
Definition get (v : value) (key : string) : result value :=
  match v with
  | VUndefined => Err (cannot_read "undefined" key)
  | VNull => Err (cannot_read "null" key)
  | VObj fields => Ok (default VUndefined (assoc key fields))
  | VArr items =>
      Ok (if String.eqb key "length" then VNum (inject_Z (Z.of_nat (length items)))
          else VUndefined)
  | VStr s =>
      Ok (if String.eqb key "length" then VNum (inject_Z (Z.of_nat (String.length s)))
          else VUndefined)
  | VBool _ | VNum _ => Ok VUndefined
  end.

(** [v[i]] *)
Definition get_index (v : value) (i : nat) : result value :=
  match v with
  | VUndefined => Err (cannot_read "undefined" (pretty i))
  | VNull => Err (cannot_read "null" (pretty i))
  | VObj fields => Ok (default VUndefined (assoc (pretty i) fields))
  | VArr items => Ok (default VUndefined (items !! i))
  | VStr s =>
      Ok (match String.get i s with
          | Some c => VStr (String c "")
          | None => VUndefined
          end)
  | VBool _ | VNum _ => Ok VUndefined
  end.

(** [String.prototype.includes] *)
Fixpoint includes (s needle : string) : bool :=
  String.prefix needle s ||
  match s with
  | "" => false
  | String _ rest => includes rest needle
  end.

Definition is_string (needle : string) (v : value) : bool :=
  match v with VStr s => String.eqb s needle | _ => false end.

(** [v.includes(needle)] for a string [needle]: the string method on a
    string, the array method on an array, a [TypeError] on anything else (a
    parsed JSON object never holds a function). *)
Definition call_includes (v : value) (needle : string) : result bool :=
  match v with
  | VStr s => Ok (includes s needle)
  | VArr items => Ok (existsb (is_string needle) items)
  | VUndefined => Err (cannot_read "undefined" "includes")
  | VNull => Err (cannot_read "null" "includes")
  | VBool _ | VNum _ | VObj _ => Err (not_a_function "assistantMessage.includes")
  end.

(** [receiver.includes(needle)] for any receiver: as [call_includes], the
    [TypeError] naming the receiver. *)
Definition method_includes (receiver : string) (v : value) (needle : string)
    : result bool :=
  match v with
  | VStr s => Ok (includes s needle)
  | VArr items => Ok (existsb (is_string needle) items)
  | VUndefined => Err (cannot_read "undefined" "includes")
  | VNull => Err (cannot_read "null" "includes")
  | VBool _ | VNum _ | VObj _ => Err (not_a_function (receiver +:+ ".includes"))
  end.

(** An optional GraphQL [String] argument: left out, [null], or a string. *)
Inductive arg : Type :=
| Omitted
| Null
| Given (s : string).

Definition arg_value (a : arg) : value :=
  match a with
  | Omitted => VUndefined
  | Null => VNull
  | Given s => VStr s
  end.

(** A string-valued binding that may be missing, as a value. *)
Definition binding (o : option string) : value :=
  match o with Some s => VStr s | None => VUndefined end.

(** [`${o}`] *)
Definition template (o : option string) : string :=
  match o with Some s => s | None => "undefined" end.

(** [o || fallback] on a string-valued binding. *)
Definition or_else (o : option string) (fallback : string) : string :=
  match o with
  | Some s => if String.eqb s "" then fallback else s
  | None => fallback
  end.

End JS.
Export JS.

(** ** Effects *)

Module Platform.

(** The Worker's [env]: named string bindings. *)
Abbreviation Env := (gmap string string).

(** The [env] object as the handler holds it: its own properties in the
    order in which [Object.keys] lists them. *)
Abbreviation EnvObject := (list (string * string)).

(** [env.key] on such an object. *)
Fixpoint env_get (key : string) (env : EnvObject) : option string :=
  match env with
  | [] => None
  | (k, v) :: rest => if String.eqb key k then Some v else env_get key rest
  end.

(** The outbound request handed to [fetch]; [body] is the value given to
    [JSON.stringify]. *)
Record HttpRequest : Type := {
  url : string;
  method : string;
  headers : list (string * string);
  body : value
}.

(** The upstream's answer: [text] is what [response.text()] resolves to and
    [json] what [response.json()] does (an [Err] when the body does not
    parse). *)
Record HttpResponse : Type := {
  status : Z;
  text : string;
  json : result value
}.

(** [response.ok] *)
Definition ok (r : HttpResponse) : bool :=
  (200 <=? status r)%Z && (status r <=? 299)%Z.

Inductive Outcome : Type :=
| Rejected (e : exn)
| Resolved (r : HttpResponse).

Inductive level : Type := LLog | LError.

(** The inbound request, as far as the handler looks at it. *)
Record Request : Type := {
  req_method : string;
  req_url : string
}.

Inductive Body : Type :=
| NoBody
| Json (v : value)
| Raw (s : string).

(** [Headers] objects match names without regard to case: they are keyed by
    the lower-case name. *)
Definition lower_ascii (c : Ascii.ascii) : Ascii.ascii :=
  let n := Ascii.nat_of_ascii c in
  if (65 <=? n)%nat && (n <=? 90)%nat then Ascii.ascii_of_nat (n + 32) else c.

Fixpoint lower (s : string) : string :=
  match s with
  | "" => ""
  | String c rest => String (lower_ascii c) (lower rest)
  end.

Definition headers_set (name v : string) (h : gmap string string) : gmap string string :=
  <[lower name := v]> h.

Definition headers_get (h : gmap string string) (name : string) : option string :=
  h !! lower name.

(** [new Headers({...})] *)
Definition headers_of (init : list (string * string)) : gmap string string :=
  foldl (λ h kv, headers_set kv.1 kv.2 h) ∅ init.

(** A [Response] of the handler. *)
Record Response : Type := {
  res_status : Z;
  res_statusText : string;
  res_headers : gmap string string;
  res_body : Body
}.

(** What [yoga.fetch] settles with: a reply, a rejection with an Error
    object, or a rejection with any other value ([null], a string, a plain
    object, ...). *)
Inductive YogaOutcome : Type :=
| YogaThrew (e : exn)
| YogaThrewValue (v : value)
| YogaReplied (r : Response).

(** Command trees. *)
Inductive prog (A : Type) : Type :=
| Ret (a : A)
| Throw (e : exn)
| Console (l : level) (label : string) (k : prog A)
| Fetch (req : HttpRequest) (k : Outcome → prog A)
| DateNow (k : Z → prog A)
| ToISOString (k : string → prog A)
| YogaFetch (req : Request) (env : option EnvObject) (k : YogaOutcome → prog A).
Arguments Ret {A} a.
Arguments Throw {A} e.
Arguments Console {A} l label k.
Arguments Fetch {A} req k.
Arguments DateNow {A} k.
Arguments ToISOString {A} k.
Arguments YogaFetch {A} req env k.

Fixpoint bind {A B : Type} (f : A → prog B) (p : prog A) : prog B :=
  match p with
  | Ret a => f a
  | Throw e => Throw e
  | Console l s k => Console l s (bind f k)
  | Fetch r k => Fetch r (λ x, bind f (k x))
  | DateNow k => DateNow (λ x, bind f (k x))
  | ToISOString k => ToISOString (λ x, bind f (k x))
  | YogaFetch r e k => YogaFetch r e (λ x, bind f (k x))
  end.

#[global] Instance prog_ret : MRet prog := @Ret.
#[global] Instance prog_bind : MBind prog := @bind.

(** [try { p } catch (error) { h error }] *)
Fixpoint try_catch {A : Type} (p : prog A) (h : exn → prog A) : prog A :=
  match p with
  | Ret a => Ret a
  | Throw e => h e
  | Console l s k => Console l s (try_catch k h)
  | Fetch r k => Fetch r (λ x, try_catch (k x) h)
  | DateNow k => DateNow (λ x, try_catch (k x) h)
  | ToISOString k => ToISOString (λ x, try_catch (k x) h)
  | YogaFetch r e k => YogaFetch r e (λ x, try_catch (k x) h)
  end.

(** A pure step that may throw. *)
Definition lift {A : Type} (r : result A) : prog A :=
  match r with Ok a => Ret a | Err e => Throw e end.

Definition console_log (label : string) : prog unit := Console LLog label (Ret ()).
Definition console_error (label : string) : prog unit := Console LError label (Ret ()).
(** [await fetch(...)]: a rejection is thrown where the call is awaited. *)
Definition fetch (req : HttpRequest) : prog HttpResponse :=
  Fetch req (λ o, match o with Rejected e => Throw e | Resolved r => Ret r end).
Definition Date_now : prog Z := DateNow Ret.
Definition toISOString : prog string := ToISOString Ret.
(** [try { ... const response = await yoga.fetch(request, env, ctx);
    k response } catch (error) { ... }] for a [try] in which nothing but the
    awaited call can throw: the [catch] is entered exactly when the call
    rejects, with an Error object ([h]) or with another value ([hv]), and
    what the [catch] itself throws leaves the handler. *)
Definition try_yoga_fetch {A : Type} (req : Request) (env : option EnvObject)
    (k : Response → prog A) (h : exn → prog A) (hv : value → prog A) : prog A :=
  YogaFetch req env
    (λ o, match o with
          | YogaReplied r => k r
          | YogaThrew e => h e
          | YogaThrewValue v => hv v
          end).

(** What the outside answers. *)
Record World : Type := {
  upstream : HttpRequest → Outcome;
  clock : Z;
  iso_clock : string;
  yoga : Request → option EnvObject → YogaOutcome
}.

Inductive event : Type :=
| EConsole (l : level) (label : string)
| EFetch (req : HttpRequest)
| EYoga (req : Request).

(** Running a command tree: the events in order, and how it ended. *)
Fixpoint run {A : Type} (w : World) (p : prog A) : list event * result A :=
  match p with
  | Ret a => ([], Ok a)
  | Throw e => ([], Err e)
  | Console l s k => let '(t, r) := run w k in (EConsole l s :: t, r)
  | Fetch req k => let '(t, r) := run w (k (upstream w req)) in (EFetch req :: t, r)
  | DateNow k => run w (k (clock w))
  | ToISOString k => run w (k (iso_clock w))
  | YogaFetch req env k =>
      let '(t, r) := run w (k (yoga w req env)) in (EYoga req :: t, r)
  end.

(** The outbound requests of a trace. *)
Definition fetches (t : list event) : list HttpRequest :=
  omap (λ e, match e with EFetch r => Some r | _ => None end) t.

Definition yoga_calls (t : list event) : list Request :=
  omap (λ e, match e with EYoga r => Some r | _ => None end) t.

End Platform.
Export Platform.

(** ** The GraphQL types of the schema *)

Module Schema.

Record Message : Type := {
  role : string;
  content : value
}.

Record ChatResponse : Type := {
  messages : list Message;
  conversationId : value
}.

Record EnvCheckResult : Type := {
  hasApiKey : bool;
  apiUrl : string;
  model : string
}.

(** The resolver's third argument, when it is an object: its [env] property
    and its own [DEEPSEEK_API_KEY] property, either of which may be
    missing. *)
Record Context : Type := {
  env : option Env;
  DEEPSEEK_API_KEY : option string
}.

Definition message_value (m : Message) : value :=
  VObj [("role", VStr (role m)); ("content", content m)].

End Schema.
Export Schema.

(** ** Object literals with spread *)

Module ObjectLiteral.

(** [obj[key] = v] on the own properties of an object: an existing property
    keeps its place and takes the new value, a new one goes last. *)
Fixpoint set_field (key : string) (v : value) (fields : list (string * value))
    : list (string * value) :=
  match fields with
  | [] => [ (key, v) ]
  | (k, x) :: rest =>
      if String.eqb key k then (k, v) :: rest else (k, x) :: set_field key v rest
  end.

(** [{ ...target, ...source }]: the properties of [source] are set on
    [target] in order; spreading [undefined] adds nothing. *)
Definition spread (source : option (list (string * value)))
    (target : list (string * value)) : list (string * value) :=
  foldl (λ acc kv, set_field kv.1 kv.2 acc) target (default [] source).

End ObjectLiteral.
Export ObjectLiteral.

(** ** The error kinds of the specification, as the messages the code throws *)

Module Errors.

Definition MissingConfiguration : exn :=
  Error "API 密钥未设置 (DEEPSEEK_API_KEY)".

Definition InsufficientBalance : exn :=
  Error "API 账户余额不足，请充值后再试".

Definition UpstreamHTTPError (status : Z) (body : string) : exn :=
  Error ("API 响应错误 (" +:+ pretty status +:+ "): " +:+ body).

Definition UnexpectedUpstreamFormat : exn :=
  Error "DeepSeek API 返回了意外的响应格式".

End Errors.
Export Errors.

(** ** The DeepSeek resolver body

    From [console.log('API configuration:', ...)] to the [return], the two
    DeepSeek revisions have the same text ([part_001] lines 217-316,
    [part_000] lines 43-142); it is embedded once, over the three values
    that the revisions read differently. *)

Module DeepSeek.

Definition default_systemPrompt : string := "You are a helpful assistant.".

(** [systemPrompt = "You are a helpful assistant."] in the destructuring of
    [args]: the default stands in for [undefined] only. *)
Definition with_default (systemPrompt : arg) : value :=
  match systemPrompt with
  | Omitted => VStr default_systemPrompt
  | a => arg_value a
  end.

(** [const messages = []; if (systemPrompt) push(system); push(user)] *)
Definition build_messages (systemPrompt : value) (message : string) : list Message :=
  (if truthy systemPrompt
   then [ {| role := "system"; content := systemPrompt |} ]
   else []) ++
  [ {| role := "user"; content := VStr message |} ].

Definition requestData (MODEL : string) (messages : list Message) : value :=
  VObj [ ("model", VStr MODEL);
         ("messages", VArr (message_value <$> messages));
         ("temperature", VNum (7 # 10));
         ("max_tokens", VNum 2000);
         ("stream", VBool false) ].

Definition request (API_KEY : option string) (BASE_URL MODEL : string)
    (messages : list Message) : HttpRequest :=
  {| url := BASE_URL +:+ "/v1/chat/completions";
     method := "POST";
     headers := [ ("Content-Type", "application/json");
                  ("Authorization", "Bearer " +:+ template API_KEY) ];
     body := requestData MODEL messages |}.

(** The arguments of the [console.log('API response structure:', ...)] call:
    [data.id], [data.object], [data.created], [data.model] and
    [data.choices] are read off [data]; the optional chains on
    [data.choices] and [Object.keys] of a truthy value cannot throw. *)
Definition response_structure (data : value) : result unit :=
  _ ← get data "id";
  _ ← get data "object";
  _ ← get data "created";
  _ ← get data "model";
  _ ← get data "choices";
  Ok ().

(** [!data.choices || data.choices.length === 0 || !data.choices[0].message] *)
Definition bad_format (data : value) : result bool :=
  choices ← get data "choices";
  if negb (truthy choices) then Ok true else
  len ← get choices "length";
  if strict_equals len (VNum 0) then Ok true else
  first ← get_index choices 0;
  msg ← get first "message";
  Ok (negb (truthy msg)).

(** [data.choices[0].message.content] *)
Definition first_content (data : value) : result value :=
  choices ← get data "choices";
  first ← get_index choices 0;
  msg ← get first "message";
  get msg "content".

(** [data.choices[0].finish_reason] *)
Definition first_finish_reason (data : value) : result value :=
  choices ← get data "choices";
  first ← get_index choices 0;
  get first "finish_reason".

(** [finish_reason === false && assistantMessage.includes('Insufficient Balance')] *)
Definition balance_exhausted (finish_reason assistantMessage : value) : result bool :=
  if strict_equals finish_reason (VBool false)
  then call_includes assistantMessage "Insufficient Balance"
  else Ok false.

(** [conversationId || `session-${Date.now()}`] *)
Definition newConversationId (conversationId : arg) : prog value :=
  if truthy (arg_value conversationId) then Ret (arg_value conversationId)
  else now ← Date_now; Ret (VStr ("session-" +:+ pretty now)).

Definition converse (API_KEY : option string) (BASE_URL MODEL : string)
    (message : string) (conversationId systemPrompt : arg)
    : prog ChatResponse :=
  console_log "API configuration:";;
  if negb (truthy (binding API_KEY)) then Throw MissingConfiguration else
  let messages := build_messages (with_default systemPrompt) message in
  console_log "Sending request to DeepSeek API:";;
  response ← fetch (request API_KEY BASE_URL MODEL messages);
  console_log "API response status:";;
  if negb (ok response) then
    let errorText := text response in
    console_error ("API error (" +:+ pretty (status response) +:+ "):");;
    if includes errorText "Insufficient Balance" then Throw InsufficientBalance
    else Throw (UpstreamHTTPError (status response) errorText)
  else
  data ← lift (json response);
  lift (response_structure data);;
  console_log "API response structure:";;
  bad ← lift (bad_format data);
  if bad : bool then
    console_error "Unexpected API response format:";;
    Throw UnexpectedUpstreamFormat
  else
  assistantMessage ← lift (first_content data);
  finish_reason ← lift (first_finish_reason data);
  exhausted ← lift (balance_exhausted finish_reason assistantMessage);
  if exhausted : bool then Throw InsufficientBalance else
  id ← newConversationId conversationId;
  Ret {| messages := [ {| role := "user"; content := VStr message |};
                       {| role := "assistant"; content := assistantMessage |} ];
         conversationId := id |}.

(** [catch (error) { console.error(...); throw error; }] *)
Definition rethrow {A : Type} (error : exn) : prog A :=
  console_error "Error in chatWithAI resolver:";;
  Throw error.

End DeepSeek.

(** ** [src/unnamed/part_001], second document: the revision with [envCheck] *)

Module Part001.
Import DeepSeek.

(** [Query.ping] *)
Definition ping : string := "pong".

(** [Query.envCheck] *)
Definition envCheck (context : option Context) : EnvCheckResult :=
  match context with
  | None => {| hasApiKey := false; apiUrl := "Context is undefined"; model := "error" |}
  | Some context =>
      match env context with
      | None =>
          {| hasApiKey := false; apiUrl := "Context.env is undefined"; model := "error" |}
      | Some env =>
          {| hasApiKey := truthy (binding (env !! "DEEPSEEK_API_KEY"));
             apiUrl := or_else (env !! "DEEPSEEK_API_URL") "Not set";
             model := or_else (env !! "DEEPSEEK_MODEL") "Not set" |}
      end
  end.

(** [Mutation.chatWithAI] *)
Definition chatWithAI (message : string) (conversationId systemPrompt : arg)
    (context : option Context) : prog ChatResponse :=
  try_catch
    match context with
    | None => Throw (Error "Context is undefined")
    | Some context =>
        match env context with
        | None =>
            Throw (Error ("Env object is undefined in context, is context.ley exist: "
                          +:+ template (DEEPSEEK_API_KEY context)))
        | Some env =>
            let API_KEY := env !! "DEEPSEEK_API_KEY" in
            let BASE_URL := or_else (env !! "DEEPSEEK_API_URL") "https://api.deepseek.com" in
            let MODEL := or_else (env !! "DEEPSEEK_MODEL") "deepseek-chat" in
            converse API_KEY BASE_URL MODEL message conversationId systemPrompt
        end
    end
    rethrow.

Definition preflight : Response :=
  {| res_status := 204;
     res_statusText := "";
     res_headers := headers_of
       [ ("Access-Control-Allow-Origin", "*");
         ("Access-Control-Allow-Methods", "GET, POST, OPTIONS");
         ("Access-Control-Allow-Headers", "Content-Type, Authorization, Apollo-Require-Preflight");
         ("Access-Control-Max-Age", "86400") ];
     res_body := NoBody |}.

(** The [/env-check] endpoint's body, before [JSON.stringify]. *)
Definition env_report (env : option EnvObject) (timestamp : string) : value :=
  VObj [ ("envAvailable", VBool (bool_decide (is_Some env)));
         ("envKeys", VArr (VStr <$> (from_option (λ e : EnvObject, e.*1) [] env)));
         ("hasApiKey",
          from_option
            (λ e : EnvObject, VBool (truthy (binding (env_get "DEEPSEEK_API_KEY" e))))
            VUndefined env);
         ("apiUrl",
          VStr (from_option
                  (λ e : EnvObject, or_else (env_get "DEEPSEEK_API_URL" e) "not set")
                  "env is undefined" env));
         ("model",
          VStr (from_option
                  (λ e : EnvObject, or_else (env_get "DEEPSEEK_MODEL" e) "not set")
                  "env is undefined" env));
         ("timestamp", VStr timestamp) ].

(** [new Headers(response.headers)] followed by the three [headers.set]. *)
Definition with_cors (h : gmap string string) : gmap string string :=
  headers_set "Access-Control-Allow-Headers" "Content-Type, Authorization"
    (headers_set "Access-Control-Allow-Methods" "GET, POST, OPTIONS"
       (headers_set "Access-Control-Allow-Origin" "*" h)).

Definition error_envelope (errorMessage errorCode timestamp : string) : Response :=
  {| res_status := 500;
     res_statusText := "";
     res_headers := headers_of
       [ ("Content-Type", "application/json");
         ("Access-Control-Allow-Origin", "*");
         ("Access-Control-Allow-Methods", "GET, POST, OPTIONS");
         ("Access-Control-Allow-Headers", "Content-Type, Authorization") ];
     res_body := Json (VObj [ ("errors", VArr [ VObj [
       ("message", VStr errorMessage);
       ("extensions", VObj [ ("code", VStr errorCode);
                             ("timestamp", VStr timestamp) ]) ] ]) ]) |}.

(** The envelope around a message that is not known to be a string. *)
Definition error_envelope_of (errorMessage : value) (errorCode timestamp : string)
    : Response :=
  {| res_status := 500;
     res_statusText := "";
     res_headers := headers_of
       [ ("Content-Type", "application/json");
         ("Access-Control-Allow-Origin", "*");
         ("Access-Control-Allow-Methods", "GET, POST, OPTIONS");
         ("Access-Control-Allow-Headers", "Content-Type, Authorization") ];
     res_body := Json (VObj [ ("errors", VArr [ VObj [
       ("message", errorMessage);
       ("extensions", VObj [ ("code", VStr errorCode);
                             ("timestamp", VStr timestamp) ]) ] ]) ]) |}.

(** The [catch] of the handler, entered with an Error object. *)
Definition on_error (error : exn) : prog Response :=
  console_error "Unhandled error in fetch:";;
  let errorMessage :=
    if String.eqb (message_of error) "" then "Unknown server error" else message_of error in
  let classified :=
    includes errorMessage "余额不足" || includes errorMessage "Insufficient Balance" in
  timestamp ← toISOString;
  Ret (if classified
       then error_envelope "🚫 API 账户余额不足，请充值后再试" "INSUFFICIENT_BALANCE" timestamp
       else error_envelope errorMessage "SERVER_ERROR" timestamp).

(** The same [catch], entered with a value that is not an Error object:
    [error.message] is read off it, and [.includes] is called on what was
    read. *)
Definition on_thrown (error : value) : prog Response :=
  console_error "Unhandled error in fetch:";;
  message ← lift (get error "message");
  let errorMessage := if truthy message then message else VStr "Unknown server error" in
  classified ← lift (found ← method_includes "errorMessage" errorMessage "余额不足";
                     if found : bool then Ok true
                     else method_includes "errorMessage" errorMessage "Insufficient Balance");
  timestamp ← toISOString;
  Ret (if classified : bool
       then error_envelope "🚫 API 账户余额不足，请充值后再试" "INSUFFICIENT_BALANCE" timestamp
       else error_envelope_of errorMessage "SERVER_ERROR" timestamp).

(** [export default { async fetch(request, env, ctx) }]; the OPTIONS and
    [/env-check] branches stand inside the [try] too, and cannot throw. *)
Definition fetch (request : Request) (env : option EnvObject) : prog Response :=
  if String.eqb (req_method request) "OPTIONS" then Ret preflight
  else if includes (req_url request) "/env-check" then
    timestamp ← toISOString;
    Ret {| res_status := 200;
           res_statusText := "";
           res_headers := headers_of [ ("Content-Type", "application/json");
                                       ("Access-Control-Allow-Origin", "*") ];
           res_body := Json (env_report env timestamp) |}
  else
    try_yoga_fetch request env
      (λ response,
         Ret {| res_status := res_status response;
                res_statusText := res_statusText response;
                res_headers := with_cors (res_headers response);
                res_body := res_body response |})
      on_error
      on_thrown.

End Part001.

(** ** [src/unnamed/part_000]: the revision reading the key off the context *)

Module Part000.
Import DeepSeek.

(** [Query.ping] *)
Definition ping : string := "hello, xiaopangza test".

(** [Mutation.chatWithAI]; [const { env } = context] and
    [env.DEEPSEEK_API_URL] throw when [context] or [env] is [undefined]. *)
Definition chatWithAI (message : string) (conversationId systemPrompt : arg)
    (context : option Context) : prog ChatResponse :=
  try_catch
    match context with
    | None =>
        Throw (TypeError "Cannot destructure property 'env' of 'context' as it is undefined.")
    | Some context =>
        let API_KEY := DEEPSEEK_API_KEY context in
        match env context with
        | None => Throw (cannot_read "undefined" "DEEPSEEK_API_URL")
        | Some env =>
            let BASE_URL := or_else (env !! "DEEPSEEK_API_URL") "https://api.deepseek.com" in
            let MODEL := or_else (env !! "DEEPSEEK_MODEL") "deepseek-chat" in
            converse API_KEY BASE_URL MODEL message conversationId systemPrompt
        end
    end
    rethrow.

(** The handler is [Part001.fetch] without the [/env-check] endpoint. *)
Definition fetch (request : Request) (env : option EnvObject) : prog Response :=
  if String.eqb (req_method request) "OPTIONS" then Ret Part001.preflight
  else
    try_yoga_fetch request env
      (λ response,
         Ret {| res_status := res_status response;
                res_statusText := res_statusText response;
                res_headers := Part001.with_cors (res_headers response);
                res_body := res_body response |})
      Part001.on_error
      Part001.on_thrown.

(** The argument of [formatError]: its [message] and [extensions]
    properties, either of which may be [undefined]. *)
Record GraphQLError : Type := {
  message : option string;
  extensions : option (list (string * value))
}.

(** [formatError] *)
Definition formatError (error : GraphQLError) : prog value :=
  console_error "GraphQL error:";;
  let message := or_else (message error) "An unknown error occurred" in
  if includes message "余额不足" || includes message "Insufficient Balance" then
    Ret (VObj [ ("message", VStr "🚫 API 账户余额不足，请充值后再试");
                ("extensions",
                 VObj (spread (extensions error)
                         [ ("code", VStr "INSUFFICIENT_BALANCE") ])) ])
  else
    timestamp ← toISOString;
    Ret (VObj [ ("message", VStr message);
                ("extensions",
                 VObj (set_field "timestamp" (VStr timestamp)
                         (spread (extensions error) []))) ]).

End Part000.

(** ** [src/src/index.js], first document: the generic [AI_API_URL] revision *)

Module IndexJs.

(** [Query.ping] *)
Definition ping : string := "pong".

Definition WrappedError (error : exn) : exn :=
  Error ("调用 AI API 时出错: " +:+
         (if String.eqb (message_of error) "" then "未知错误" else message_of error)).

Definition UpstreamHTTPError (status : Z) (body : string) : exn :=
  Error ("AI API 响应错误 (" +:+ pretty status +:+ "): " +:+ body).

Definition UnexpectedUpstreamFormat : exn :=
  Error "AI API 返回了意外的响应格式".

(** [{ messages: [...] }], with [conversationId] added when it is truthy. *)
Definition requestData (message : string) (conversationId : arg) : value :=
  VObj ([ ("messages", VArr [ message_value {| role := "user"; content := VStr message |} ]) ]
        ++ (if truthy (arg_value conversationId)
            then [ ("conversationId", arg_value conversationId) ]
            else [])).

Definition request (AI_API_KEY AI_API_URL : option string) (message : string)
    (conversationId : arg) : HttpRequest :=
  {| url := template AI_API_URL;
     method := "POST";
     headers := [ ("Content-Type", "application/json");
                  ("Authorization", "Bearer " +:+ template AI_API_KEY) ];
     body := requestData message conversationId |}.

(** [!data.choices || !data.choices[0] || !data.choices[0].message] *)
Definition bad_format (data : value) : result bool :=
  choices ← get data "choices";
  if negb (truthy choices) then Ok true else
  first ← get_index choices 0;
  if negb (truthy first) then Ok true else
  msg ← get first "message";
  Ok (negb (truthy msg)).

(** [data.conversationId || null] *)
Definition upstream_conversationId (data : value) : result value :=
  id ← get data "conversationId";
  Ok (if truthy id then id else VNull).

(** [Mutation.chatWithAI]; the reads of [context] and [env] come before the
    [try]. *)
Definition chatWithAI (message : string) (conversationId : arg)
    (context : option Context) : prog ChatResponse :=
  match context with
  | None =>
      Throw (TypeError "Cannot destructure property 'request' of 'context' as it is undefined.")
  | Some context =>
      match env context with
      | None => Throw (cannot_read "undefined" "AI_API_KEY")
      | Some env =>
          let AI_API_KEY := env !! "AI_API_KEY" in
          let AI_API_URL := env !! "AI_API_URL" in
          try_catch
            (console_log "Sending request to AI API:";;
             response ← Platform.fetch (request AI_API_KEY AI_API_URL message conversationId);
             if negb (ok response) then
               let errorText := text response in
               console_error ("AI API error (" +:+ pretty (status response) +:+ "): "
                              +:+ errorText);;
               Throw (UpstreamHTTPError (status response) errorText)
             else
             data ← lift (json response);
             console_log "AI API response:";;
             bad ← lift (bad_format data);
             if bad : bool then
               console_error "Unexpected API response format:";;
               Throw UnexpectedUpstreamFormat
             else
             assistantMessage ← lift (DeepSeek.first_content data);
             id ← lift (upstream_conversationId data);
             Ret {| messages := [ {| role := "user"; content := VStr message |};
                                  {| role := "assistant"; content := assistantMessage |} ];
                    conversationId := id |})
            (λ error,
               console_error "Error calling AI API:";;
               Throw (WrappedError error))
      end
  end.

Definition error_envelope (errorMessage : string) : Response :=
  {| res_status := 500;
     res_statusText := "";
     res_headers := headers_of
       [ ("Content-Type", "application/json");
         ("Access-Control-Allow-Origin", "*");
         ("Access-Control-Allow-Methods", "GET, POST, OPTIONS");
         ("Access-Control-Allow-Headers", "Content-Type, Authorization") ];
     res_body := Json (VObj [ ("errors", VArr [ VObj [ ("message", VStr errorMessage) ] ]) ]) |}.

(** The envelope around a message that is not known to be a string. *)
Definition error_envelope_of (errorMessage : value) : Response :=
  {| res_status := 500;
     res_statusText := "";
     res_headers := headers_of
       [ ("Content-Type", "application/json");
         ("Access-Control-Allow-Origin", "*");
         ("Access-Control-Allow-Methods", "GET, POST, OPTIONS");
         ("Access-Control-Allow-Headers", "Content-Type, Authorization") ];
     res_body := Json (VObj [ ("errors", VArr [ VObj [ ("message", errorMessage) ] ]) ]) |}.

(** The [catch] of the handler, entered with an Error object. *)
Definition on_error (error : exn) : prog Response :=
  console_error "Error handling request:";;
  Ret (error_envelope
         (if String.eqb (message_of error) "" then "未知错误" else message_of error)).

(** The same [catch], entered with a value that is not an Error object. *)
Definition on_thrown (error : value) : prog Response :=
  console_error "Error handling request:";;
  message ← lift (get error "message");
  Ret (error_envelope_of (if truthy message then message else VStr "未知错误")).

(** [export default { async fetch(request, env, ctx) }] *)
Definition fetch (request : Request) (env : option EnvObject) : prog Response :=
  console_log "Received request:";;
  if String.eqb (req_method request) "OPTIONS" then Ret Part001.preflight
  else
    try_yoga_fetch request env
      (λ response,
         Ret {| res_status := res_status response;
                res_statusText := res_statusText response;
                res_headers := Part001.with_cors (res_headers response);
                res_body := res_body response |})
      on_error
      on_thrown.

End IndexJs.

(** ** The revisions side by side *)

Module Revisions.

Inductive revision : Type :=
| part_001
| part_000
| index_js.

(** [Query.ping] of a revision. *)
Definition ping (rev : revision) : string :=
  match rev with
  | part_001 => Part001.ping
  | part_000 => Part000.ping
  | index_js => IndexJs.ping
  end.

(** [Mutation.chatWithAI] of a revision; the schema of [index.js] has no
    [systemPrompt] argument. *)
Definition chatWithAI (rev : revision) (message : string)
    (conversationId systemPrompt : arg) (context : option Context)
    : prog ChatResponse :=
  match rev with
  | part_001 => Part001.chatWithAI message conversationId systemPrompt context
  | part_000 => Part000.chatWithAI message conversationId systemPrompt context
  | index_js => IndexJs.chatWithAI message conversationId context
  end.

(** The Worker's [fetch] handler of a revision. *)
Definition handler (rev : revision) (request : Request) (env : option EnvObject)
    : prog Response :=
  match rev with
  | part_001 => Part001.fetch request env
  | part_000 => Part000.fetch request env
  | index_js => IndexJs.fetch request env
  end.

(** Where a DeepSeek revision reads the API key: [env.DEEPSEEK_API_KEY] in
    [part_001], [context.DEEPSEEK_API_KEY] in [part_000]. *)
Definition API_KEY (rev : revision) (context : Context) : option string :=
  match rev with
  | part_001 => e ← env context; e !! "DEEPSEEK_API_KEY"
  | part_000 => DEEPSEEK_API_KEY context
  | index_js => e ← env context; e !! "AI_API_KEY"
  end.

(** Whether the handler of a revision hands the request to [yoga.fetch]:
    not for OPTIONS, and in [part_001] not for a URL with [/env-check]. *)
Definition reaches_graphql (rev : revision) (request : Request) : bool :=
  negb (String.eqb (req_method request) "OPTIONS") &&
  match rev with
  | part_001 => negb (includes (req_url request) "/env-check")
  | _ => true
  end.

End Revisions.
Export Revisions.

(** ** Reading a run *)

Module Runs.
Import DeepSeek.

Definition trace_of {A : Type} (w : World) (p : prog A) : list event := (run w p).1.
Definition result_of {A : Type} (w : World) (p : prog A) : result A := (run w p).2.

(** A command tree that never reaches [fetch]. *)
Definition quiet {A : Type} (p : prog A) : Prop :=
  ∀ w, fetches (trace_of w p) = [].

(** What the resolver body does once the upstream has answered: the text of
    [converse] after [await fetch(...)]. *)
Definition after_fetch (message : string) (conversationId : arg)
    (response : HttpResponse) : prog ChatResponse :=
  console_log "API response status:";;
  if negb (ok response) then
    let errorText := text response in
    console_error ("API error (" +:+ pretty (status response) +:+ "):");;
    if includes errorText "Insufficient Balance" then Throw InsufficientBalance
    else Throw (UpstreamHTTPError (status response) errorText)
  else
  data ← lift (json response);
  lift (response_structure data);;
  console_log "API response structure:";;
  bad ← lift (bad_format data);
  if bad : bool then
    console_error "Unexpected API response format:";;
    Throw UnexpectedUpstreamFormat
  else
  assistantMessage ← lift (first_content data);
  finish_reason ← lift (first_finish_reason data);
  exhausted ← lift (balance_exhausted finish_reason assistantMessage);
  if exhausted : bool then Throw InsufficientBalance else
  id ← newConversationId conversationId;
  Ret {| messages := [ {| role := "user"; content := VStr message |};
                       {| role := "assistant"; content := assistantMessage |} ];
         conversationId := id |}.

(** The identifier [newConversationId] settles on when [Date.now()] is [now]. *)
Definition conversation_id (now : Z) (conversationId : arg) : value :=
  if truthy (arg_value conversationId) then arg_value conversationId
  else VStr ("session-" +:+ pretty now).

(** The outcome of [after_fetch] as a function of the upstream's answer. *)
Definition settle (now : Z) (message : string) (conversationId : arg)
    (response : HttpResponse) : result ChatResponse :=
  if negb (ok response) then
    Err (if includes (text response) "Insufficient Balance" then InsufficientBalance
         else UpstreamHTTPError (status response) (text response))
  else
  data ← json response;
  response_structure data;;
  bad ← bad_format data;
  if bad : bool then Err UnexpectedUpstreamFormat else
  assistantMessage ← first_content data;
  finish_reason ← first_finish_reason data;
  exhausted ← balance_exhausted finish_reason assistantMessage;
  if exhausted : bool then Err InsufficientBalance else
  Ok {| messages := [ {| role := "user"; content := VStr message |};
                      {| role := "assistant"; content := assistantMessage |} ];
        conversationId := conversation_id now conversationId |}.

(** The same for the [index.js] revision, whose [catch] wraps every error. *)
Definition settle_index (message : string) (response : HttpResponse)
    : result ChatResponse :=
  if negb (ok response) then
    Err (IndexJs.UpstreamHTTPError (status response) (text response))
  else
  data ← json response;
  bad ← IndexJs.bad_format data;
  if bad : bool then Err IndexJs.UnexpectedUpstreamFormat else
  assistantMessage ← first_content data;
  id ← IndexJs.upstream_conversationId data;
  Ok {| messages := [ {| role := "user"; content := VStr message |};
                      {| role := "assistant"; content := assistantMessage |} ];
        conversationId := id |}.

(** The text of [IndexJs.chatWithAI] after [await fetch(...)], inside the
    [try]. *)
Definition after_fetch_index (message : string) (response : HttpResponse)
    : prog ChatResponse :=
  if negb (ok response) then
    let errorText := text response in
    console_error ("AI API error (" +:+ pretty (status response) +:+ "): " +:+ errorText);;
    Throw (IndexJs.UpstreamHTTPError (status response) errorText)
  else
  data ← lift (json response);
  console_log "AI API response:";;
  bad ← lift (IndexJs.bad_format data);
  if bad : bool then
    console_error "Unexpected API response format:";;
    Throw IndexJs.UnexpectedUpstreamFormat
  else
  assistantMessage ← lift (first_content data);
  id ← lift (IndexJs.upstream_conversationId data);
  Ret {| messages := [ {| role := "user"; content := VStr message |};
                       {| role := "assistant"; content := assistantMessage |} ];
         conversationId := id |}.

Definition wrap {A : Type} (r : result A) : result A :=
  match r with Ok a => Ok a | Err e => Err (IndexJs.WrappedError e) end.

(** The answer of the upstream to an awaited [fetch]. *)
Definition awaited {A : Type} (o : Outcome) (k : HttpResponse → result A) : result A :=
  match o with Rejected e => Err e | Resolved r => k r end.

(** [needle] occurs in [s]. *)
Definition contains (s needle : string) : Prop :=
  ∃ before after, s = before +:+ needle +:+ after.

(** The run made one outbound call and the upstream answered it with [r]. *)
Definition answered (w : World) (t : list event) (r : HttpResponse) : Prop :=
  ∃ req, fetches t = [req] ∧ upstream w req = Resolved r.

(** The request a DeepSeek revision sends when [context.env] is [e]. *)
Definition outbound (rev : revision) (context : Context) (e : Env)
    (message : string) (systemPrompt : arg) : HttpRequest :=
  request (API_KEY rev context)
    (or_else (e !! "DEEPSEEK_API_URL") "https://api.deepseek.com")
    (or_else (e !! "DEEPSEEK_MODEL") "deepseek-chat")
    (build_messages (with_default systemPrompt) message).

(** A binding counts as set when it is truthy, as in the code's own
    [env.X || 'Not set']. *)
Definition is_set (o : option string) : bool := truthy (binding o).

End Runs.
Export Runs.

(** ** Sample inputs *)

Module Samples.

Definition sample_env : Env := {[ "DEEPSEEK_API_KEY" := "sk-test" ]}.

(** The same bindings as the handler holds them. *)
Definition sample_env_object : EnvObject := [ ("DEEPSEEK_API_KEY", "sk-test") ].

(** A context with an [env] object that holds the key, and the key as a
    property of its own. *)
Definition sample_context : Context :=
  {| env := Some sample_env; DEEPSEEK_API_KEY := Some "sk-test" |}.

(** A context for the [index.js] revision. *)
Definition index_context : Context :=
  {| env := Some {[ "AI_API_KEY" := "sk-test";
                    "AI_API_URL" := "https://ai.example/chat" ]};
     DEEPSEEK_API_KEY := None |}.

(** A context whose [env] object also binds the URL and the model. *)
Definition configured_context : Context :=
  {| env := Some {[ "DEEPSEEK_API_KEY" := "sk-test";
                    "DEEPSEEK_API_URL" := "https://proxy.example";
                    "DEEPSEEK_MODEL" := "deepseek-reasoner" ]};
     DEEPSEEK_API_KEY := Some "sk-test" |}.

(** A context without an [env] object. *)
Definition envless_context : Context :=
  {| env := None; DEEPSEEK_API_KEY := None |}.

(** A context whose [env] object is empty, with the key as a property of
    the context itself. *)
Definition keyed_context : Context :=
  {| env := Some ∅; DEEPSEEK_API_KEY := Some "sk-test" |}.

(** A context whose [env] object is empty. *)
Definition bare_context : Context :=
  {| env := Some ∅; DEEPSEEK_API_KEY := None |}.

(** [{"id": "cmpl-1", "choices": [{"message": {"role": "assistant",
    "content": content}, "finish_reason": finish_reason}]}] *)
Definition completion (content finish_reason : value) : value :=
  VObj [ ("id", VStr "cmpl-1");
         ("choices", VArr [ VObj [
            ("message", VObj [ ("role", VStr "assistant"); ("content", content) ]);
            ("finish_reason", finish_reason) ] ]) ].

(** A world whose upstream answers every request with the same response. *)
Definition world (r : HttpResponse) : World :=
  {| upstream := λ _, Resolved r;
     clock := 1730000000000;
     iso_clock := "2024-10-27T03:33:20.000Z";
     yoga := λ _ _, YogaThrew (Error "not reached") |}.

Definition greeting : HttpResponse :=
  {| status := 200; text := "";
     json := Ok (completion (VStr "Hi there") (VStr "stop")) |}.

Definition payment_required : HttpResponse :=
  {| status := 402;
     text := "{error: {message: Insufficient Balance, type: unknown_error}}";
     json := Err (SyntaxError "not read") |}.

Definition unavailable : HttpResponse :=
  {| status := 503; text := "upstream down"; json := Err (SyntaxError "not read") |}.

(** [{"choices": [null]}] *)
Definition null_choice : HttpResponse :=
  {| status := 200; text := ""; json := Ok (VObj [ ("choices", VArr [ VNull ]) ]) |}.

Definition preflight_request : Request :=
  {| req_method := "OPTIONS"; req_url := "https://worker.example/" |}.

(** A success response whose first choice carries [content] and
    [finish_reason]. *)
Definition completed (content finish_reason : value) : HttpResponse :=
  {| status := 200; text := ""; json := Ok (completion content finish_reason) |}.

End Samples.

(** ** Facts about the embedding *)

Section Programs.
Context {A B : Type}.
Implicit Types (w : World) (p : prog A) (f : A → prog B).

Lemma run_bind w p f :
  run w (p ≫= f) =
  match run w p with
  | (t, Ok a) => let '(t', r) := run w (f a) in ((t ++ t')%list, r)
  | (t, Err e) => (t, Err e)
  end.
Proof.
  unfold mbind, prog_bind.
  induction p as [a|e|l s k IH|req k IH|k IH|k IH|req en k IH]; cbn.
  - destruct (run w (f a)); reflexivity.
  - reflexivity.
  - rewrite IH. destruct (run w k) as [t [a|e]]; [destruct (run w (f a))|]; reflexivity.
  - rewrite IH. destruct (run w (k _)) as [t [a|e]]; [destruct (run w (f a))|]; reflexivity.
  - apply IH.
  - apply IH.
  - rewrite IH. destruct (run w (k _)) as [t [a|e]]; [destruct (run w (f a))|]; reflexivity.
Qed.

Lemma run_try_catch w p (h : exn → prog A) :
  run w (try_catch p h) =
  match run w p with
  | (t, Ok a) => (t, Ok a)
  | (t, Err e) => let '(t', r) := run w (h e) in ((t ++ t')%list, r)
  end.
Proof.
  induction p as [a|e|l s k IH|req k IH|k IH|k IH|req en k IH]; cbn.
  - reflexivity.
  - destruct (run w (h e)); reflexivity.
  - rewrite IH. destruct (run w k) as [t [a|e]]; [|destruct (run w (h e))]; reflexivity.
  - rewrite IH. destruct (run w (k _)) as [t [a|e]]; [|destruct (run w (h e))]; reflexivity.
  - apply IH.
  - apply IH.
  - rewrite IH. destruct (run w (k _)) as [t [a|e]]; [|destruct (run w (h e))]; reflexivity.
Qed.

Lemma result_of_bind w p f :
  result_of w (p ≫= f) =
  match result_of w p with Ok a => result_of w (f a) | Err e => Err e end.
Proof.
  unfold result_of. rewrite run_bind.
  destruct (run w p) as [t [a|e]]; cbn; [destruct (run w (f a))|]; reflexivity.
Qed.

Lemma trace_of_bind w p f :
  trace_of w (p ≫= f) =
  (trace_of w p ++ match result_of w p with Ok a => trace_of w (f a) | Err _ => [] end)%list.
Proof.
  unfold trace_of, result_of. rewrite run_bind.
  destruct (run w p) as [t [a|e]]; cbn; [destruct (run w (f a))|]; cbn;
    rewrite ?app_nil_r; reflexivity.
Qed.

Lemma result_of_try_catch w p (h : exn → prog A) :
  result_of w (try_catch p h) =
  match result_of w p with Ok a => Ok a | Err e => result_of w (h e) end.
Proof.
  unfold result_of. rewrite run_try_catch.
  destruct (run w p) as [t [a|e]]; cbn; [|destruct (run w (h e))]; reflexivity.
Qed.

Lemma trace_of_try_catch w p (h : exn → prog A) :
  trace_of w (try_catch p h) =
  (trace_of w p ++ match result_of w p with Ok _ => [] | Err e => trace_of w (h e) end)%list.
Proof.
  unfold trace_of, result_of. rewrite run_try_catch.
  destruct (run w p) as [t [a|e]]; cbn; [|destruct (run w (h e))]; cbn;
    rewrite ?app_nil_r; reflexivity.
Qed.

Lemma result_of_lift w (r : result A) : result_of w (lift r) = r.
Proof. destruct r; reflexivity. Qed.

Lemma trace_of_lift w (r : result A) : trace_of w (lift r) = [].
Proof. destruct r; reflexivity. Qed.

Lemma result_of_console w l s (k : prog A) :
  result_of w (Console l s k) = result_of w k.
Proof. unfold result_of. cbn. destruct (run w k); reflexivity. Qed.

Lemma fetches_console w l s (k : prog A) :
  fetches (trace_of w (Console l s k)) = fetches (trace_of w k).
Proof. unfold trace_of. cbn. destruct (run w k); reflexivity. Qed.

Lemma fetches_app (t t' : list event) :
  fetches (t ++ t') = (fetches t ++ fetches t')%list.
Proof. apply omap_app. Qed.

Lemma quiet_ret (a : A) : quiet (Ret a).
Proof. intros w. reflexivity. Qed.

Lemma quiet_throw e : quiet (@Throw A e).
Proof. intros w. reflexivity. Qed.

Lemma quiet_lift (r : result A) : quiet (lift r).
Proof. intros w. rewrite trace_of_lift. reflexivity. Qed.

Lemma quiet_console l s (k : prog A) : quiet k → quiet (Console l s k).
Proof. intros Hk w. rewrite fetches_console. apply Hk. Qed.

Lemma quiet_bind p f : quiet p → (∀ a, quiet (f a)) → quiet (p ≫= f).
Proof.
  intros Hp Hf w. rewrite trace_of_bind, fetches_app, Hp.
  destruct (result_of w p); [apply Hf | reflexivity].
Qed.

Lemma quiet_if (b : bool) (p q : prog A) : quiet p → quiet q → quiet (if b then p else q).
Proof. destruct b; auto. Qed.

Lemma fetches_bind w p f :
  fetches (trace_of w (p ≫= f)) =
  (fetches (trace_of w p) ++
   match result_of w p with Ok a => fetches (trace_of w (f a)) | Err _ => [] end)%list.
Proof. rewrite trace_of_bind, fetches_app. destruct (result_of w p); reflexivity. Qed.

Lemma fetches_try_catch w p (h : exn → prog A) :
  (∀ e, quiet (h e)) → fetches (trace_of w (try_catch p h)) = fetches (trace_of w p).
Proof.
  intros Hh. rewrite trace_of_try_catch, fetches_app.
  destruct (result_of w p) as [a|e]; [|rewrite Hh]; apply app_nil_r.
Qed.

End Programs.

Create HintDb quiet.
#[local] Hint Resolve quiet_ret quiet_throw quiet_lift quiet_console quiet_if : quiet.

Ltac quiet_tac :=
  repeat first
    [ apply quiet_bind; [| intros ? ]
    | apply quiet_if
    | solve [ unfold console_log, console_error; auto with quiet ] ].

(** *** The DeepSeek resolver body *)

Section Converse.
Import DeepSeek.
Implicit Types (w : World) (message : string) (conversationId systemPrompt : arg).

Lemma quiet_Date_now : quiet Date_now.
Proof. intros w. reflexivity. Qed.

Lemma quiet_rethrow {A : Type} e : quiet (@rethrow A e).
Proof. intros w. reflexivity. Qed.

Lemma quiet_after_fetch message conversationId response :
  quiet (after_fetch message conversationId response).
Proof. unfold after_fetch. pose proof quiet_Date_now. quiet_tac. Qed.

Lemma result_of_newConversationId w conversationId :
  result_of w (newConversationId conversationId)
  = Ok (conversation_id (clock w) conversationId).
Proof.
  unfold newConversationId, conversation_id.
  destruct (truthy _); reflexivity.
Qed.

Lemma result_after_fetch w message conversationId response :
  result_of w (after_fetch message conversationId response)
  = settle (clock w) message conversationId response.
Proof.
  unfold after_fetch, settle.
  rewrite result_of_bind. cbn [console_log result_of run fst snd].
  destruct (negb (ok response)).
  - rewrite result_of_bind. cbn. destruct (includes _ _); reflexivity.
  - rewrite result_of_bind, result_of_lift.
    destruct (json response) as [data|e]; [|reflexivity].
    cbn [mbind result_bind].
    rewrite result_of_bind, result_of_lift.
    destruct (response_structure data) as [[]|e]; [|reflexivity].
    cbn [mbind result_bind].
    rewrite result_of_bind. cbn [console_log result_of run fst snd].
    rewrite result_of_bind, result_of_lift.
    destruct (bad_format data) as [[]|e]; [reflexivity| |reflexivity].
    cbn [mbind result_bind].
    rewrite result_of_bind, result_of_lift.
    destruct (first_content data) as [assistantMessage|e]; [|reflexivity].
    cbn [mbind result_bind].
    rewrite result_of_bind, result_of_lift.
    destruct (first_finish_reason data) as [finish_reason|e]; [|reflexivity].
    cbn [mbind result_bind].
    rewrite result_of_bind, result_of_lift.
    destruct (balance_exhausted _ _) as [[]|e]; [reflexivity| |reflexivity].
    rewrite result_of_bind, result_of_newConversationId. reflexivity.
Qed.

Lemma result_of_fetch w req :
  result_of w (Platform.fetch req) = awaited (upstream w req) Ok.
Proof. unfold result_of, Platform.fetch. cbn. destruct (upstream w req); reflexivity. Qed.

Lemma fetches_fetch w req : fetches (trace_of w (Platform.fetch req)) = [req].
Proof. unfold trace_of, Platform.fetch. cbn. destruct (upstream w req); reflexivity. Qed.

Lemma converse_after_fetch API_KEY BASE_URL MODEL message conversationId systemPrompt :
  converse API_KEY BASE_URL MODEL message conversationId systemPrompt =
  (console_log "API configuration:";;
   if negb (truthy (binding API_KEY)) then Throw MissingConfiguration else
   console_log "Sending request to DeepSeek API:";;
   response ← Platform.fetch
     (request API_KEY BASE_URL MODEL (build_messages (with_default systemPrompt) message));
   after_fetch message conversationId response).
Proof. reflexivity. Qed.

Lemma result_converse w API_KEY BASE_URL MODEL message conversationId systemPrompt :
  result_of w (converse API_KEY BASE_URL MODEL message conversationId systemPrompt) =
  if truthy (binding API_KEY)
  then awaited
         (upstream w (request API_KEY BASE_URL MODEL
                        (build_messages (with_default systemPrompt) message)))
         (settle (clock w) message conversationId)
  else Err MissingConfiguration.
Proof.
  rewrite converse_after_fetch.
  rewrite result_of_bind. cbn [console_log result_of run fst snd].
  destruct (truthy (binding API_KEY)); cbn [negb]; [|reflexivity].
  rewrite result_of_bind. cbn [console_log result_of run fst snd].
  rewrite result_of_bind, result_of_fetch.
  destruct (upstream w _) as [e|r]; cbn [awaited]; [reflexivity|].
  apply result_after_fetch.
Qed.

Lemma fetches_converse w API_KEY BASE_URL MODEL message conversationId systemPrompt :
  fetches (trace_of w (converse API_KEY BASE_URL MODEL message conversationId systemPrompt)) =
  if truthy (binding API_KEY)
  then [ request API_KEY BASE_URL MODEL (build_messages (with_default systemPrompt) message) ]
  else [].
Proof.
  rewrite converse_after_fetch.
  rewrite fetches_bind. cbn [console_log result_of trace_of run fst snd fetches omap list_omap app].
  destruct (truthy (binding API_KEY)); cbn [negb]; [|reflexivity].
  rewrite fetches_bind. cbn [console_log result_of trace_of run fst snd fetches omap list_omap app].
  rewrite fetches_bind, fetches_fetch.
  destruct (result_of w (Platform.fetch _)); [rewrite quiet_after_fetch|]; reflexivity.
Qed.

End Converse.

(** *** Strings *)

Lemma prefix_append (p s : string) :
  String.prefix p s = true ↔ ∃ rest, s = p +:+ rest.
Proof.
  revert s. induction p as [|c p IH]; intros s.
  - split; [intros _; exists s; reflexivity | destruct s; reflexivity].
  - destruct s as [|d s]; cbn.
    + split; [discriminate | intros [rest H]; discriminate].
    + destruct (Ascii.ascii_dec c d) as [->|Hne].
      * rewrite IH. split; intros [rest H]; exists rest; [rewrite H; reflexivity|].
        injection H as H. exact H.
      * split; [discriminate | intros [rest H]; injection H as H1 H2; congruence].
Qed.

Lemma includes_contains (s needle : string) :
  includes s needle = true ↔ contains s needle.
Proof.
  induction s as [|c s IH]; cbn [includes]; rewrite orb_true_iff, prefix_append.
  - split.
    + intros [[rest H]|H]; [|discriminate]. exists "", rest. exact H.
    + intros [[|b before] [after H]]; [left; exists after; exact H | discriminate].
  - rewrite IH. split.
    + intros [[rest H]|[before [after H]]].
      * exists "", rest. exact H.
      * exists (String c before), after. cbn. rewrite H. reflexivity.
    + intros [[|b before] [after H]].
      * left. exists after. exact H.
      * right. injection H as _ H. exists before, after. exact H.
Qed.

(** *** The DeepSeek revisions *)

Lemma run_pair {A : Type} (w : World) (p : prog A) t (r : result A) :
  run w p = (t, r) ↔ trace_of w p = t ∧ result_of w p = r.
Proof.
  unfold trace_of, result_of. destruct (run w p) as [t' r']; cbn.
  split; [intros [= -> ->]; auto | intros [-> ->]; reflexivity].
Qed.

Lemma result_of_rethrow {A : Type} w (r : result A) :
  match r with Ok a => Ok a | Err e => result_of w (DeepSeek.rethrow e) end = r.
Proof. destruct r; reflexivity. Qed.

Lemma deepseek_result rev w message conversationId systemPrompt context e :
  rev ≠ index_js → env context = Some e →
  result_of w (chatWithAI rev message conversationId systemPrompt (Some context)) =
  if is_set (API_KEY rev context)
  then awaited (upstream w (outbound rev context e message systemPrompt))
               (settle (clock w) message conversationId)
  else Err MissingConfiguration.
Proof.
  intros Hrev He. unfold outbound, is_set.
  destruct rev; [| |congruence]; cbn [chatWithAI API_KEY];
    unfold Part001.chatWithAI, Part000.chatWithAI;
    rewrite He; cbn [mbind option_bind];
    rewrite result_of_try_catch, result_of_rethrow; apply result_converse.
Qed.

Lemma deepseek_fetches rev w message conversationId systemPrompt context e :
  rev ≠ index_js → env context = Some e →
  fetches (trace_of w (chatWithAI rev message conversationId systemPrompt (Some context))) =
  if is_set (API_KEY rev context)
  then [ outbound rev context e message systemPrompt ]
  else [].
Proof.
  intros Hrev He. unfold outbound, is_set.
  destruct rev; [| |congruence]; cbn [chatWithAI API_KEY];
    unfold Part001.chatWithAI, Part000.chatWithAI;
    rewrite He; cbn [mbind option_bind];
    (rewrite fetches_try_catch; [|intros; apply quiet_rethrow]); apply fetches_converse.
Qed.

(** Without a context or an [env] object no DeepSeek revision reaches the
    outbound call. *)
Lemma deepseek_no_env rev w message conversationId systemPrompt context :
  rev ≠ index_js →
  (∀ c, context = Some c → env c = None) →
  fetches (trace_of w (chatWithAI rev message conversationId systemPrompt context)) = [] ∧
  ∃ e, result_of w (chatWithAI rev message conversationId systemPrompt context) = Err e.
Proof.
  intros Hrev Hc.
  destruct rev; [| |congruence]; cbn [chatWithAI];
    unfold Part001.chatWithAI, Part000.chatWithAI;
    (destruct context as [c|]; [rewrite (Hc c eq_refl)|]); cbn; eauto.
Qed.

(** Whatever happens, a DeepSeek revision makes at most one outbound call,
    and that only with an [env] object and a set key. *)
Lemma deepseek_single_call rev w message conversationId systemPrompt context req :
  rev ≠ index_js →
  req ∈ fetches (trace_of w (chatWithAI rev message conversationId systemPrompt context)) →
  ∃ c e, context = Some c ∧ env c = Some e ∧ is_set (API_KEY rev c) = true ∧
         req = outbound rev c e message systemPrompt ∧
         fetches (trace_of w (chatWithAI rev message conversationId systemPrompt context))
         = [req].
Proof.
  intros Hrev Hin.
  destruct context as [c|].
  - destruct (env c) as [e|] eqn:He.
    + rewrite (deepseek_fetches _ _ _ _ _ _ e Hrev He) in *.
      destruct (is_set _) eqn:Hk.
      * apply list_elem_of_singleton in Hin as ->. eauto 10.
      * inversion Hin.
    + destruct (deepseek_no_env rev w message conversationId systemPrompt (Some c) Hrev) as [H _].
      { intros ? [= <-]. exact He. }
      rewrite H in Hin. inversion Hin.
  - destruct (deepseek_no_env rev w message conversationId systemPrompt None Hrev) as [H _].
    { intros ? [=]. }
    rewrite H in Hin. inversion Hin.
Qed.

(** A DeepSeek run whose one call the upstream answered with [r] ends as
    [settle] says. *)
Lemma deepseek_answered rev w message conversationId systemPrompt context t res r :
  rev ≠ index_js →
  run w (chatWithAI rev message conversationId systemPrompt context) = (t, res) →
  answered w t r →
  res = settle (clock w) message conversationId r.
Proof.
  intros Hrev [Ht Hres]%run_pair (req & Hreq & Hup).
  assert (Hin : req ∈ fetches (trace_of w
            (chatWithAI rev message conversationId systemPrompt context))).
  { rewrite Ht, Hreq. apply list_elem_of_singleton. reflexivity. }
  destruct (deepseek_single_call _ _ _ _ _ _ _ Hrev Hin) as (c & e & -> & He & Hk & -> & _).
  rewrite (deepseek_result _ _ _ _ _ _ e Hrev He), Hk, Hup in Hres. cbn in Hres.
  congruence.
Qed.

(** *** Property reads and the shape check *)

Lemma get_defined (v : value) (k k' : string) x :
  get v k = Ok x → ∃ y, get v k' = Ok y.
Proof. destruct v; cbn; intros [=]; eauto. Qed.

Lemma get_truthy (v : value) (k : string) :
  truthy v = true → ∃ y, get v k = Ok y.
Proof. destruct v; cbn; intros [=]; eauto. Qed.

Lemma strict_equals_false (v : value) :
  strict_equals v (VBool false) = true ↔ v = VBool false.
Proof.
  destruct v as [| |[]| | | |]; cbn; split; intros H; try discriminate; reflexivity.
Qed.

Lemma bad_format_passed (data : value) :
  DeepSeek.bad_format data = Ok false →
  DeepSeek.response_structure data = Ok () ∧
  ∃ choices first msg content finish_reason,
    get data "choices" = Ok choices ∧
    get_index choices 0 = Ok first ∧
    get first "message" = Ok msg ∧ truthy msg = true ∧
    DeepSeek.first_content data = Ok content ∧ get msg "content" = Ok content ∧
    DeepSeek.first_finish_reason data = Ok finish_reason ∧
    get first "finish_reason" = Ok finish_reason.
Proof.
  unfold DeepSeek.bad_format, DeepSeek.response_structure, DeepSeek.first_content,
    DeepSeek.first_finish_reason.
  intros H.
  destruct (get data "choices") as [choices|] eqn:Hc; cbn in H; [|discriminate].
  split.
  { destruct data; cbn in Hc |- *; try discriminate; reflexivity. }
  cbn [mbind result_bind].
  destruct (truthy choices); cbn in H; [|discriminate].
  destruct (get choices "length") as [len|]; cbn in H; [|discriminate].
  destruct (strict_equals len (VNum 0)); [discriminate|].
  destruct (get_index choices 0) as [first|] eqn:Hf; cbn in H; [|discriminate].
  destruct (get first "message") as [msg|] eqn:Hm; cbn in H; [|discriminate].
  injection H as H. apply negb_false_iff in H.
  destruct (get_truthy msg "content" H) as [content Hcontent].
  destruct (get_defined first "message" "finish_reason" msg Hm) as [fr Hfr].
  exists choices, first, msg, content, fr.
  rewrite Hf. cbn [mbind result_bind]. rewrite Hm. cbn [mbind result_bind].
  rewrite Hcontent, Hfr. auto 10.
Qed.

Lemma settle_passed now message conversationId r data :
  ok r = true → json r = Ok data → DeepSeek.bad_format data = Ok false →
  ∃ content finish_reason,
    DeepSeek.first_content data = Ok content ∧
    DeepSeek.first_finish_reason data = Ok finish_reason ∧
    settle now message conversationId r =
    (exhausted ← DeepSeek.balance_exhausted finish_reason content;
     if exhausted : bool then Err InsufficientBalance else
     Ok {| messages := [ {| role := "user"; content := VStr message |};
                         {| role := "assistant"; content := content |} ];
           conversationId := conversation_id now conversationId |}).
Proof.
  intros Hok Hjson Hbad.
  destruct (bad_format_passed data Hbad)
    as (Hs & choices & first & msg & content & fr & _ & _ & _ & _ & Hc & _ & Hfr & _).
  exists content, fr. split; [exact Hc|]. split; [exact Hfr|].
  unfold settle. rewrite Hok, Hjson. cbn [negb mbind result_bind].
  rewrite Hs, Hbad, Hc, Hfr. reflexivity.
Qed.

Lemma settle_Ok now message conversationId r resp :
  settle now message conversationId r = Ok resp →
  ∃ data content,
    ok r = true ∧ json r = Ok data ∧ DeepSeek.bad_format data = Ok false ∧
    DeepSeek.first_content data = Ok content ∧
    resp = {| messages := [ {| role := "user"; content := VStr message |};
                            {| role := "assistant"; content := content |} ];
              conversationId := conversation_id now conversationId |}.
Proof.
  unfold settle. intros H.
  destruct (ok r); cbn [negb] in H; [|discriminate].
  destruct (json r) as [data|]; cbn [mbind result_bind] in H; [|discriminate].
  destruct (DeepSeek.response_structure data) as [[]|]; cbn [mbind result_bind] in H;
    [|discriminate].
  destruct (DeepSeek.bad_format data) as [[]|] eqn:Hbad; cbn [mbind result_bind] in H;
    try discriminate.
  destruct (DeepSeek.first_content data) as [content|] eqn:Hcontent;
    cbn [mbind result_bind] in H; [|discriminate].
  destruct (DeepSeek.first_finish_reason data) as [fr|]; cbn [mbind result_bind] in H;
    [|discriminate].
  destruct (DeepSeek.balance_exhausted fr content) as [[]|]; cbn [mbind result_bind] in H;
    try discriminate.
  injection H as <-. exists data, content. auto.
Qed.

(** ** The claims *)

Lemma unset_key_fails rev w message conversationId systemPrompt context e :
  rev ≠ index_js → env context = Some e → is_set (API_KEY rev context) = false →
  ∃ t, run w (chatWithAI rev message conversationId systemPrompt (Some context))
       = (t, Err MissingConfiguration) ∧ fetches t = [].
Proof.
  intros Hrev He Hk. eexists. split.
  - apply run_pair. split; [reflexivity|].
    rewrite (deepseek_result _ _ _ _ _ _ e Hrev He), Hk. reflexivity.
  - rewrite (deepseek_fetches _ _ _ _ _ _ e Hrev He), Hk. reflexivity.
Qed.

(** C3, as the code has it. When the API key a DeepSeek revision reads is
    absent ([env.DEEPSEEK_API_KEY] in [part_001], [context.DEEPSEEK_API_KEY]
    in [part_000]), [chatWithAI] fails and its run holds no outbound call;
    the error is the missing-configuration error when the context carries an
    [env] object, and another error when it does not. *)
Theorem missing_key_fails_before_fetch
    rev w message conversationId systemPrompt context :
  (rev = part_001 ∧ (∀ e, env context = Some e → e !! "DEEPSEEK_API_KEY" = None)) ∨
  (rev = part_000 ∧ DEEPSEEK_API_KEY context = None) →
  ∃ t x,
    run w (chatWithAI rev message conversationId systemPrompt (Some context)) = (t, Err x) ∧
    fetches t = [] ∧
    (∀ e, env context = Some e → x = Error "API 密钥未设置 (DEEPSEEK_API_KEY)") ∧
    (env context = None → x ≠ Error "API 密钥未设置 (DEEPSEEK_API_KEY)").
Proof.
  intros Hkey.
  assert (Hrev : rev ≠ index_js) by (destruct Hkey as [[-> _]|[-> _]]; discriminate).
  destruct (env context) as [e|] eqn:He.
  - assert (Hunset : is_set (API_KEY rev context) = false).
    { unfold is_set. destruct Hkey as [[-> Hk]|[-> Hk]]; cbn [API_KEY].
      - rewrite He. cbn [mbind option_bind]. rewrite (Hk e eq_refl). reflexivity.
      - rewrite Hk. reflexivity. }
    destruct (unset_key_fails rev w message conversationId systemPrompt context e
                Hrev He Hunset) as (t & Hrun & Hquiet).
    exists t, MissingConfiguration. split; [exact Hrun|]. split; [exact Hquiet|].
    split; [reflexivity | discriminate].
  - destruct rev; [| |congruence]; cbn [chatWithAI];
      unfold Part001.chatWithAI, Part000.chatWithAI; rewrite He;
      eexists _, _; (split; [apply run_pair; split; reflexivity|]);
      (split; [reflexivity|]); (split; [discriminate|]); intros _; cbn; discriminate.
Qed.

Lemma missing_key_fails_before_fetch_witness :
  let w := Samples.world Samples.greeting in
  (∃ t, run w (chatWithAI part_001 "Hello" Omitted Omitted (Some Samples.bare_context))
        = (t, Err (Error "API 密钥未设置 (DEEPSEEK_API_KEY)")) ∧ fetches t = []) ∧
  (∃ t, run w (chatWithAI part_000 "Hello" Omitted Omitted (Some Samples.bare_context))
        = (t, Err (Error "API 密钥未设置 (DEEPSEEK_API_KEY)")) ∧ fetches t = []) ∧
  (∃ t x, run w (chatWithAI part_001 "Hello" Omitted Omitted (Some Samples.envless_context))
          = (t, Err x) ∧ fetches t = [] ∧
          x ≠ Error "API 密钥未设置 (DEEPSEEK_API_KEY)").
Proof.
  intros w. split; [|split].
  - destruct (missing_key_fails_before_fetch part_001 w "Hello" Omitted Omitted
                Samples.bare_context) as (t & x & Hrun & Hquiet & Hmissing & _).
    + left. split; [reflexivity|]. intros e [= <-]. reflexivity.
    + exists t. rewrite <- (Hmissing ∅ eq_refl). split; [exact Hrun | exact Hquiet].
  - destruct (missing_key_fails_before_fetch part_000 w "Hello" Omitted Omitted
                Samples.bare_context) as (t & x & Hrun & Hquiet & Hmissing & _).
    + right. split; reflexivity.
    + exists t. rewrite <- (Hmissing ∅ eq_refl). split; [exact Hrun | exact Hquiet].
  - destruct (missing_key_fails_before_fetch part_001 w "Hello" Omitted Omitted
                Samples.envless_context) as (t & x & Hrun & Hquiet & _ & Hother).
    + left. split; [reflexivity|]. intros e [=].
    + exists t, x. split; [exact Hrun|]. split; [exact Hquiet|]. apply Hother. reflexivity.
Defined.

(** C3 as stated fails twice. With the key absent and no [env] object in
    the context, [part_001] fails with its "Env object is undefined" error,
    not with the missing-configuration error; and [part_000], which reads
    the key off the context, makes its outbound call although the [env]
    object holds no key. *)
Lemma absent_key_without_missing_configuration :
  (¬ ∀ w message conversationId systemPrompt context,
       (∀ e, env context = Some e → e !! "DEEPSEEK_API_KEY" = None) →
       result_of w (chatWithAI part_001 message conversationId systemPrompt (Some context))
       = Err (Error "API 密钥未设置 (DEEPSEEK_API_KEY)")) ∧
  (¬ ∀ w message conversationId systemPrompt context,
       (∀ e, env context = Some e → e !! "DEEPSEEK_API_KEY" = None) →
       result_of w (chatWithAI part_000 message conversationId systemPrompt (Some context))
       = Err (Error "API 密钥未设置 (DEEPSEEK_API_KEY)") ∧
       fetches (trace_of w
                  (chatWithAI part_000 message conversationId systemPrompt (Some context)))
       = []).
Proof.
  split; intros H.
  - specialize (H (Samples.world Samples.greeting) "Hello" Omitted Omitted
                  Samples.envless_context).
    assert (Hres : result_of (Samples.world Samples.greeting)
              (chatWithAI part_001 "Hello" Omitted Omitted (Some Samples.envless_context))
            = Err (Error
                "Env object is undefined in context, is context.ley exist: undefined")).
    { vm_compute. reflexivity. }
    rewrite Hres in H. discriminate H. intros e [=].
  - specialize (H (Samples.world Samples.greeting) "Hello" Omitted Omitted
                  Samples.keyed_context).
    destruct H as [_ Hquiet]; [intros e [= <-]; reflexivity|].
    vm_compute in Hquiet. discriminate Hquiet.
Qed.

(** C4. When the upstream answers the call of a DeepSeek revision with a
    status outside 200-299 (402 among them), [chatWithAI] fails with the
    insufficient-balance error if the body text contains "Insufficient
    Balance", and otherwise with the generic upstream error, whose message
    carries the status and the body text; the two errors differ. *)
Theorem upstream_error_classified
    rev w message conversationId systemPrompt context t res r :
  rev ≠ index_js →
  run w (chatWithAI rev message conversationId systemPrompt context) = (t, res) →
  answered w t r →
  (status r < 200 ∨ 299 < status r)%Z →
  (contains (text r) "Insufficient Balance" →
   res = Err (Error "API 账户余额不足，请充值后再试")) ∧
  (¬ contains (text r) "Insufficient Balance" →
   res = Err (Error ("API 响应错误 (" +:+ pretty (status r) +:+ "): " +:+ text r))) ∧
  Error "API 账户余额不足，请充值后再试"
  ≠ Error ("API 响应错误 (" +:+ pretty (status r) +:+ "): " +:+ text r).
Proof.
  intros Hrev Hrun Hans Hstatus.
  assert (Hok : ok r = false).
  { unfold ok. apply andb_false_iff.
    destruct Hstatus; [left | right]; apply Z.leb_gt; assumption. }
  rewrite (deepseek_answered _ _ _ _ _ _ _ _ _ Hrev Hrun Hans).
  unfold settle. rewrite Hok. cbn [negb].
  repeat split.
  - intros H%includes_contains. rewrite H. reflexivity.
  - intros H. destruct (includes _ _) eqn:Hi; [|reflexivity].
    apply includes_contains in Hi. contradiction.
  - cbn. discriminate.
Qed.

Lemma upstream_error_classified_witness :
  let call := chatWithAI part_001 "Hello" Omitted Omitted (Some Samples.sample_context) in
  let w402 := Samples.world Samples.payment_required in
  let w503 := Samples.world Samples.unavailable in
  (answered w402 (run w402 call).1 Samples.payment_required ∧
   status Samples.payment_required = 402%Z ∧
   (run w402 call).2 = Err (Error "API 账户余额不足，请充值后再试")) ∧
  (answered w503 (run w503 call).1 Samples.unavailable ∧
   status Samples.unavailable = 503%Z ∧
   (run w503 call).2 = Err (Error "API 响应错误 (503): upstream down")).
Proof.
  intros call w402 w503.
  assert (H402 : answered w402 (run w402 call).1 Samples.payment_required).
  { eexists. split; [vm_compute; reflexivity | reflexivity]. }
  assert (H503 : answered w503 (run w503 call).1 Samples.unavailable).
  { eexists. split; [vm_compute; reflexivity | reflexivity]. }
  split; (split; [assumption | split; [reflexivity|]]).
  - apply (upstream_error_classified part_001 w402 "Hello" Omitted Omitted
             (Some Samples.sample_context) (run w402 call).1 (run w402 call).2
             Samples.payment_required);
      [discriminate | apply surjective_pairing | exact H402 | right; reflexivity |].
    apply includes_contains. vm_compute. reflexivity.
  - apply (upstream_error_classified part_001 w503 "Hello" Omitted Omitted
             (Some Samples.sample_context) (run w503 call).1 (run w503 call).2
             Samples.unavailable);
      [discriminate | apply surjective_pairing | exact H503 | right; reflexivity |].
    intros H%includes_contains. vm_compute in H. discriminate.
Defined.

(** C6. Every outbound call of a DeepSeek revision is the only one of its
    run: a POST to [{baseURL}/v1/chat/completions], [baseURL] being
    [DEEPSEEK_API_URL] when that is bound and not empty and
    "https://api.deepseek.com" otherwise, whose JSON body holds the
    configured model ([DEEPSEEK_MODEL], or "deepseek-chat"),
    [temperature: 0.7], [max_tokens: 2000], [stream: false] and the
    messages: the system prompt entry first when there is a system prompt,
    then the user message. *)
Theorem outbound_request_shape
    rev w message conversationId systemPrompt context t res req :
  rev ≠ index_js →
  run w (chatWithAI rev message conversationId systemPrompt context) = (t, res) →
  req ∈ fetches t →
  let entry := λ r c, VObj [ ("role", VStr r); ("content", VStr c) ] in
  ∃ c e, context = Some c ∧ env c = Some e ∧
    fetches t = [req] ∧
    url req =
      match e !! "DEEPSEEK_API_URL" with
      | Some u => if String.eqb u "" then "https://api.deepseek.com" else u
      | None => "https://api.deepseek.com"
      end +:+ "/v1/chat/completions" ∧
    method req = "POST" ∧
    body req =
      VObj [ ("model",
              VStr match e !! "DEEPSEEK_MODEL" with
                   | Some m => if String.eqb m "" then "deepseek-chat" else m
                   | None => "deepseek-chat"
                   end);
             ("messages",
              VArr match systemPrompt with
                   | Omitted => [ entry "system" "You are a helpful assistant.";
                                  entry "user" message ]
                   | Null => [ entry "user" message ]
                   | Given s => if String.eqb s "" then [ entry "user" message ]
                                else [ entry "system" s; entry "user" message ]
                   end);
             ("temperature", VNum (7 # 10));
             ("max_tokens", VNum 2000);
             ("stream", VBool false) ].
Proof.
  intros Hrev [Ht Hres]%run_pair Hin entry. subst t.
  destruct (deepseek_single_call _ _ _ _ _ _ _ Hrev Hin) as (c & e & -> & He & _ & -> & Hone).
  exists c, e. split; [reflexivity|]. split; [exact He|]. split; [exact Hone|].
  unfold outbound, DeepSeek.request, DeepSeek.requestData, DeepSeek.build_messages, or_else.
  cbn [url method body].
  split; [reflexivity|]. split; [reflexivity|].
  destruct systemPrompt as [| |s]; try reflexivity.
  cbn [DeepSeek.with_default arg_value truthy]. destruct (String.eqb s ""); reflexivity.
Qed.

Lemma outbound_request_shape_witness :
  let w := Samples.world Samples.greeting in
  let call := chatWithAI part_001 "Hello" Omitted (Given "Be brief")
                (Some Samples.configured_context) in
  ∃ req, req ∈ fetches (run w call).1 ∧
    fetches (run w call).1 = [req] ∧
    url req = "https://proxy.example/v1/chat/completions" ∧
    method req = "POST" ∧
    body req =
      VObj [ ("model", VStr "deepseek-reasoner");
             ("messages",
              VArr [ VObj [ ("role", VStr "system"); ("content", VStr "Be brief") ];
                     VObj [ ("role", VStr "user"); ("content", VStr "Hello") ] ]);
             ("temperature", VNum (7 # 10));
             ("max_tokens", VNum 2000);
             ("stream", VBool false) ].
Proof.
  intros w call.
  pose (req := {| url := "https://proxy.example/v1/chat/completions";
                  method := "POST";
                  headers := [ ("Content-Type", "application/json");
                               ("Authorization", "Bearer sk-test") ];
                  body := VObj [ ("model", VStr "deepseek-reasoner");
                    ("messages",
                     VArr [ VObj [ ("role", VStr "system"); ("content", VStr "Be brief") ];
                            VObj [ ("role", VStr "user"); ("content", VStr "Hello") ] ]);
                    ("temperature", VNum (7 # 10));
                    ("max_tokens", VNum 2000);
                    ("stream", VBool false) ] |}).
  exists req.
  assert (Hin : req ∈ fetches (run w call).1).
  { vm_compute. apply list_elem_of_here. }
  split; [exact Hin|].
  destruct (outbound_request_shape part_001 w "Hello" Omitted (Given "Be brief")
              (Some Samples.configured_context) (run w call).1 (run w call).2 req
              ltac:(discriminate) (surjective_pairing _) Hin)
    as (c & e & Hc & He & Hone & Hurl & Hmethod & Hbody).
  injection Hc as <-. injection He as <-.
  split; [exact Hone|]. split; [exact Hurl|]. split; [exact Hmethod | exact Hbody].
Defined.

Lemma call_includes_error (v : value) (needle : string) e :
  call_includes v needle = Err e → e ≠ InsufficientBalance.
Proof. destruct v; cbn; intros [= <-]; discriminate. Qed.

Lemma call_includes_true (v : value) (needle : string) :
  call_includes v needle = Ok true ↔
  (∃ s, v = VStr s ∧ contains s needle) ∨ (∃ items, v = VArr items ∧ VStr needle ∈ items).
Proof.
  split.
  - destruct v as [| |b|q|s|items|fields]; cbn; intros [= H].
    + left. exists s. split; [reflexivity|]. apply includes_contains, H.
    + right. exists items. split; [reflexivity|].
      apply existsb_exists in H as (x & Hx & Hs). apply list_elem_of_In.
      destruct x; cbn in Hs; try discriminate. apply String.eqb_eq in Hs as ->. exact Hx.
  - intros [(s & -> & H)|(items & -> & H)]; cbn; f_equal.
    + apply includes_contains, H.
    + apply existsb_exists. exists (VStr needle). split; [apply list_elem_of_In, H|].
      cbn. apply String.eqb_refl.
Qed.

(** C10. On a success response that passes the shape check, a DeepSeek
    revision raises the insufficient-balance error exactly when
    [choices[0].finish_reason] is the boolean [false] and the content
    contains "Insufficient Balance" (as a substring of a string; an array
    content counts when it has that string as an element); with any other
    [finish_reason], a string among them, the content comes back as the
    assistant message whatever it contains, and so does a string content
    without that text whatever [finish_reason] is. *)
Theorem balance_check_on_success
    rev w message conversationId systemPrompt context t res r data :
  rev ≠ index_js →
  run w (chatWithAI rev message conversationId systemPrompt context) = (t, res) →
  answered w t r → (200 ≤ status r ≤ 299)%Z → json r = Ok data →
  DeepSeek.bad_format data = Ok false →
  ∃ choices first msg content finish_reason,
    get data "choices" = Ok choices ∧
    get_index choices 0 = Ok first ∧
    get first "message" = Ok msg ∧
    get msg "content" = Ok content ∧
    get first "finish_reason" = Ok finish_reason ∧
    (res = Err (Error "API 账户余额不足，请充值后再试") ↔
     finish_reason = VBool false ∧
     ((∃ s, content = VStr s ∧ contains s "Insufficient Balance") ∨
      (∃ items, content = VArr items ∧ VStr "Insufficient Balance" ∈ items))) ∧
    (finish_reason ≠ VBool false →
     ∃ resp, res = Ok resp ∧
       messages resp = [ {| role := "user"; content := VStr message |};
                         {| role := "assistant"; content := content |} ]) ∧
    (∀ s, content = VStr s → ¬ contains s "Insufficient Balance" →
     ∃ resp, res = Ok resp ∧
       messages resp = [ {| role := "user"; content := VStr message |};
                         {| role := "assistant"; content := VStr s |} ]).
Proof.
  intros Hrev Hrun Hans Hstatus Hjson Hbad.
  assert (Hok : ok r = true).
  { unfold ok. apply andb_true_iff. split; apply Z.leb_le; lia. }
  rewrite (deepseek_answered _ _ _ _ _ _ _ _ _ Hrev Hrun Hans).
  destruct (bad_format_passed data Hbad)
    as (Hs & choices & first & msg & content & fr & Hch & Hfirst & Hmsg & _ & Hc & Hcontent
        & Hfr & Hreason).
  exists choices, first, msg, content, fr.
  split; [exact Hch|]. split; [exact Hfirst|]. split; [exact Hmsg|].
  split; [exact Hcontent|]. split; [exact Hreason|].
  unfold settle. rewrite Hok, Hjson. cbn [negb mbind result_bind].
  rewrite Hs, Hbad, Hc, Hfr. cbn [mbind result_bind].
  unfold DeepSeek.balance_exhausted. rewrite <- call_includes_true.
  destruct (strict_equals fr (VBool false)) eqn:Heq.
  - apply strict_equals_false in Heq as ->.
    destruct (call_includes content "Insufficient Balance") as [[]|e] eqn:Hinc;
      cbn [mbind result_bind]; (split; [|split]).
    + split; [intros _; auto | reflexivity].
    + intros H; contradiction.
    + intros s -> N. apply call_includes_true in Hinc as [(s' & [= <-] & H)|(? & [=] & _)].
      contradiction.
    + split; [discriminate | intros [_ [=]]].
    + intros H; contradiction.
    + intros s -> _. eexists. split; reflexivity.
    + split; [intros [= ->]; contradiction (call_includes_error _ _ _ Hinc eq_refl)
             | intros [_ [=]]].
    + intros H; contradiction.
    + intros s -> _. discriminate Hinc.
  - assert (Hne : fr ≠ VBool false).
    { intros H%strict_equals_false. congruence. }
    cbn [mbind result_bind]. split; [|split].
    + split; [discriminate | intros [H _]; contradiction].
    + intros _. eexists. split; reflexivity.
    + intros s -> _. eexists. split; reflexivity.
Qed.

Lemma balance_check_on_success_witness :
  let call := chatWithAI part_001 "Hello" Omitted Omitted (Some Samples.sample_context) in
  let stopped := Samples.completed (VStr "Insufficient Balance") (VStr "stop") in
  let refused := Samples.completed (VStr "Insufficient Balance") (VBool false) in
  let greeted := Samples.completed (VStr "Hi there") (VBool false) in
  (answered (Samples.world stopped) (run (Samples.world stopped) call).1 stopped ∧
   status stopped = 200%Z ∧
   ∃ resp, (run (Samples.world stopped) call).2 = Ok resp ∧
     messages resp = [ {| role := "user"; content := VStr "Hello" |};
                       {| role := "assistant"; content := VStr "Insufficient Balance" |} ]) ∧
  (answered (Samples.world refused) (run (Samples.world refused) call).1 refused ∧
   status refused = 200%Z ∧
   (run (Samples.world refused) call).2 = Err (Error "API 账户余额不足，请充值后再试")) ∧
  (answered (Samples.world greeted) (run (Samples.world greeted) call).1 greeted ∧
   status greeted = 200%Z ∧
   ∃ resp, (run (Samples.world greeted) call).2 = Ok resp ∧
     messages resp = [ {| role := "user"; content := VStr "Hello" |};
                       {| role := "assistant"; content := VStr "Hi there" |} ]).
Proof.
  intros call stopped refused greeted.
  assert (Hs : answered (Samples.world stopped) (run (Samples.world stopped) call).1 stopped).
  { eexists. split; [vm_compute; reflexivity | reflexivity]. }
  assert (Hr : answered (Samples.world refused) (run (Samples.world refused) call).1 refused).
  { eexists. split; [vm_compute; reflexivity | reflexivity]. }
  assert (Hg : answered (Samples.world greeted) (run (Samples.world greeted) call).1 greeted).
  { eexists. split; [vm_compute; reflexivity | reflexivity]. }
  assert (Hstatus : (200 ≤ 200 ≤ 299)%Z) by lia.
  split; [|split]; (split; [assumption | split; [reflexivity|]]).
  - destruct (balance_check_on_success part_001 (Samples.world stopped) "Hello" Omitted
                Omitted (Some Samples.sample_context) _ _ stopped _
                ltac:(discriminate) (surjective_pairing _) Hs Hstatus eq_refl eq_refl)
      as (choices & first & msg & content & fr & [= <-] & [= <-] & [= <-] & [= <-] & [= <-]
          & _ & H & _).
    apply H. discriminate.
  - destruct (balance_check_on_success part_001 (Samples.world refused) "Hello" Omitted
                Omitted (Some Samples.sample_context) _ _ refused _
                ltac:(discriminate) (surjective_pairing _) Hr Hstatus eq_refl eq_refl)
      as (choices & first & msg & content & fr & [= <-] & [= <-] & [= <-] & [= <-] & [= <-]
          & H & _ & _).
    apply H. split; [reflexivity|]. left. eexists. split; [reflexivity|].
    apply includes_contains. vm_compute. reflexivity.
  - destruct (balance_check_on_success part_001 (Samples.world greeted) "Hello" Omitted
                Omitted (Some Samples.sample_context) _ _ greeted _
                ltac:(discriminate) (surjective_pairing _) Hg Hstatus eq_refl eq_refl)
      as (choices & first & msg & content & fr & [= <-] & [= <-] & [= <-] & [= <-] & [= <-]
          & _ & _ & H).
    apply (H "Hi there"); [reflexivity|].
    intros N%includes_contains. vm_compute in N. discriminate.
Defined.

(** *** The [index.js] revision *)

Lemma quiet_after_fetch_index message response :
  quiet (after_fetch_index message response).
Proof. unfold after_fetch_index. quiet_tac. Qed.

Lemma result_after_fetch_index w message response :
  result_of w (after_fetch_index message response) = settle_index message response.
Proof.
  unfold after_fetch_index, settle_index.
  destruct (negb (ok response)).
  - rewrite result_of_bind. reflexivity.
  - rewrite result_of_bind, result_of_lift.
    destruct (json response) as [data|e]; [|reflexivity].
    cbn [mbind result_bind].
    rewrite result_of_bind. cbn [console_log result_of run fst snd].
    rewrite result_of_bind, result_of_lift.
    destruct (IndexJs.bad_format data) as [[]|e]; [reflexivity| |reflexivity].
    cbn [mbind result_bind].
    rewrite result_of_bind, result_of_lift.
    destruct (DeepSeek.first_content data) as [assistantMessage|e]; [|reflexivity].
    cbn [mbind result_bind].
    rewrite result_of_bind, result_of_lift.
    destruct (IndexJs.upstream_conversationId data) as [id|e]; reflexivity.
Qed.

Lemma index_after_fetch message conversationId context e :
  env context = Some e →
  IndexJs.chatWithAI message conversationId (Some context) =
  try_catch
    (console_log "Sending request to AI API:";;
     response ← Platform.fetch
       (IndexJs.request (e !! "AI_API_KEY") (e !! "AI_API_URL") message conversationId);
     after_fetch_index message response)
    (λ error, console_error "Error calling AI API:";; Throw (IndexJs.WrappedError error)).
Proof. intros He. unfold IndexJs.chatWithAI. rewrite He. reflexivity. Qed.

Lemma index_result w message conversationId context e :
  env context = Some e →
  result_of w (IndexJs.chatWithAI message conversationId (Some context)) =
  wrap (awaited (upstream w (IndexJs.request (e !! "AI_API_KEY") (e !! "AI_API_URL")
                               message conversationId))
                (settle_index message)).
Proof.
  intros He. rewrite (index_after_fetch _ _ _ _ He), result_of_try_catch.
  rewrite result_of_bind. cbn [console_log result_of run fst snd].
  rewrite result_of_bind, result_of_fetch.
  destruct (upstream w _) as [err|r]; cbn [awaited]; [reflexivity|].
  rewrite result_after_fetch_index. destruct (settle_index message r); reflexivity.
Qed.

Lemma index_fetches w message conversationId context e :
  env context = Some e →
  fetches (trace_of w (IndexJs.chatWithAI message conversationId (Some context))) =
  [ IndexJs.request (e !! "AI_API_KEY") (e !! "AI_API_URL") message conversationId ].
Proof.
  intros He. rewrite (index_after_fetch _ _ _ _ He).
  rewrite fetches_try_catch; [|intros err w'; reflexivity].
  rewrite fetches_bind. cbn [console_log result_of trace_of run fst snd fetches omap list_omap app].
  rewrite fetches_bind, fetches_fetch.
  destruct (result_of w (Platform.fetch _)); [rewrite quiet_after_fetch_index|]; reflexivity.
Qed.

Lemma settle_index_Ok message r resp :
  settle_index message r = Ok resp →
  ∃ data content id,
    ok r = true ∧ json r = Ok data ∧ DeepSeek.first_content data = Ok content ∧
    get data "conversationId" = Ok id ∧
    resp = {| messages := [ {| role := "user"; content := VStr message |};
                            {| role := "assistant"; content := content |} ];
              conversationId := if truthy id then id else VNull |}.
Proof.
  unfold settle_index, IndexJs.upstream_conversationId. intros H.
  destruct (ok r); cbn [negb] in H; [|discriminate].
  destruct (json r) as [data|]; cbn [mbind result_bind] in H; [|discriminate].
  destruct (IndexJs.bad_format data) as [[]|]; cbn [mbind result_bind] in H;
    try discriminate.
  destruct (DeepSeek.first_content data) as [content|] eqn:Hcontent;
    cbn [mbind result_bind] in H; [|discriminate].
  destruct (get data "conversationId") as [id|] eqn:Hid;
    cbn [mbind result_bind] in H; [|discriminate].
  injection H as <-. exists data, content, id. auto.
Qed.

(** *** Successful runs *)

Lemma deepseek_success rev w message conversationId systemPrompt context t resp :
  rev ≠ index_js →
  run w (chatWithAI rev message conversationId systemPrompt context) = (t, Ok resp) →
  ∃ r, answered w t r ∧ settle (clock w) message conversationId r = Ok resp.
Proof.
  intros Hrev [Ht Hres]%run_pair.
  destruct context as [c|].
  - destruct (env c) as [e|] eqn:He.
    + rewrite (deepseek_result _ _ _ _ _ _ e Hrev He) in Hres.
      subst t. unfold answered. rewrite (deepseek_fetches _ _ _ _ _ _ e Hrev He).
      destruct (is_set _); [|discriminate].
      destruct (upstream w _) as [err|r] eqn:Hup; cbn [awaited] in Hres; [discriminate|].
      exists r. split; [|exact Hres]. eexists. split; [reflexivity | exact Hup].
    + destruct (deepseek_no_env rev w message conversationId systemPrompt (Some c) Hrev)
        as [_ [err H]]; [intros ? [= <-]; exact He | congruence].
  - destruct (deepseek_no_env rev w message conversationId systemPrompt None Hrev)
      as [_ [err H]]; [intros ? [=] | congruence].
Qed.

Lemma index_success w message conversationId context t resp :
  run w (IndexJs.chatWithAI message conversationId context) = (t, Ok resp) →
  ∃ r, answered w t r ∧ settle_index message r = Ok resp.
Proof.
  intros [Ht Hres]%run_pair.
  destruct context as [c|]; [|discriminate].
  destruct (env c) as [e|] eqn:He.
  - rewrite (index_result _ _ _ _ _ He) in Hres.
    subst t. unfold answered. rewrite (index_fetches _ _ _ _ _ He).
    destruct (upstream w _) as [err|r] eqn:Hup; cbn [awaited wrap] in Hres; [discriminate|].
    exists r. split; [eexists; split; [reflexivity | exact Hup]|].
    destruct (settle_index message r); cbn [wrap] in Hres; [congruence | discriminate].
  - unfold IndexJs.chatWithAI in Hres. rewrite He in Hres. discriminate.
Qed.



(** C2, as the code has it. On success a DeepSeek revision returns the
    caller's [conversationId] unchanged when it is a non-empty string; when
    it is left out, [null] or the empty string, the returned identifier is
    "session-" followed by the decimal [Date.now()], which is not empty. The
    [index.js] revision returns the [conversationId] of the upstream's reply
    when that is truthy and [null] otherwise, whatever the caller sent. *)
Theorem conversation_id_rule
    rev w message conversationId systemPrompt context t resp :
  run w (chatWithAI rev message conversationId systemPrompt context) = (t, Ok resp) →
  match rev with
  | index_js =>
      ∃ r data id,
        answered w t r ∧ json r = Ok data ∧ get data "conversationId" = Ok id ∧
        Schema.conversationId resp = if truthy id then id else VNull
  | _ =>
      (∀ s, conversationId = Given s → s ≠ "" → Schema.conversationId resp = VStr s) ∧
      (conversationId = Omitted ∨ conversationId = Null ∨ conversationId = Given "" →
       Schema.conversationId resp = VStr ("session-" +:+ pretty (clock w)) ∧
       "session-" +:+ pretty (clock w) ≠ "")
  end.
Proof.
  intros Hrun.
  assert (Hdeepseek : rev ≠ index_js →
    (∀ s, conversationId = Given s → s ≠ "" → Schema.conversationId resp = VStr s) ∧
    (conversationId = Omitted ∨ conversationId = Null ∨ conversationId = Given "" →
     Schema.conversationId resp = VStr ("session-" +:+ pretty (clock w)) ∧
     "session-" +:+ pretty (clock w) ≠ "")).
  { intros Hrev.
    destruct (deepseek_success _ _ _ _ _ _ _ _ Hrev Hrun) as (r & _ & Hsettle).
    destruct (settle_Ok _ _ _ _ _ Hsettle) as (data & content & _ & _ & _ & _ & ->).
    cbn [Schema.conversationId]. unfold conversation_id. split.
    - intros s -> Hs. cbn. destruct (String.eqb_spec s ""); [contradiction | reflexivity].
    - intros [-> | [-> | ->]]; cbn; (split; [reflexivity | discriminate]). }
  destruct rev; [apply Hdeepseek; discriminate | apply Hdeepseek; discriminate |].
  destruct (index_success _ _ _ _ _ _ Hrun) as (r & Hans & Hsettle).
  destruct (settle_index_Ok _ _ _ Hsettle) as (data & content & id & _ & Hjson & _ & Hid & ->).
  exists r, data, id. auto.
Qed.

Lemma conversation_id_rule_witness :
  let w := Samples.world Samples.greeting in
  (∃ t resp,
     run w (chatWithAI part_001 "Hello" (Given "conv-7") Omitted (Some Samples.sample_context))
     = (t, Ok resp) ∧ Schema.conversationId resp = VStr "conv-7") ∧
  (∃ t resp,
     run w (chatWithAI part_001 "Hello" Omitted Omitted (Some Samples.sample_context))
     = (t, Ok resp) ∧ Schema.conversationId resp = VStr "session-1730000000000").
Proof.
  intros w. split.
  - pose (call := chatWithAI part_001 "Hello" (Given "conv-7") Omitted
                    (Some Samples.sample_context)).
    assert (Hrun : run w call =
              ((run w call).1,
               Ok {| messages := [ {| role := "user"; content := VStr "Hello" |};
                                   {| role := "assistant"; content := VStr "Hi there" |} ];
                     conversationId := VStr "conv-7" |})).
    { vm_compute. reflexivity. }
    eexists _, _. split; [exact Hrun|].
    destruct (conversation_id_rule part_001 w "Hello" (Given "conv-7") Omitted
                (Some Samples.sample_context) _ _ Hrun) as [Hecho _].
    apply (Hecho "conv-7"); [reflexivity | discriminate].
  - pose (call := chatWithAI part_001 "Hello" Omitted Omitted (Some Samples.sample_context)).
    assert (Hrun : run w call =
              ((run w call).1,
               Ok {| messages := [ {| role := "user"; content := VStr "Hello" |};
                                   {| role := "assistant"; content := VStr "Hi there" |} ];
                     conversationId := VStr "session-1730000000000" |})).
    { vm_compute. reflexivity. }
    eexists _, _. split; [exact Hrun|].
    destruct (conversation_id_rule part_001 w "Hello" Omitted Omitted
                (Some Samples.sample_context) _ _ Hrun) as [_ Hgen].
    apply Hgen. left. reflexivity.
Defined.

(** C2 as stated fails twice: [part_001] answers a supplied empty
    [conversationId] with a generated identifier, and [index.js] answers a
    supplied one with [null] when the upstream's reply carries none. *)
Lemma supplied_conversation_id_not_echoed :
  (¬ ∀ w message s systemPrompt context t resp,
       run w (chatWithAI part_001 message (Given s) systemPrompt context) = (t, Ok resp) →
       Schema.conversationId resp = VStr s) ∧
  (¬ ∀ w message s systemPrompt context t resp,
       run w (chatWithAI index_js message (Given s) systemPrompt context) = (t, Ok resp) →
       Schema.conversationId resp = VStr s).
Proof.
  split; intros H.
  - pose (call := chatWithAI part_001 "Hello" (Given "") Omitted (Some Samples.sample_context)).
    assert (Hrun : run (Samples.world Samples.greeting) call =
              ((run (Samples.world Samples.greeting) call).1,
               Ok {| messages := [ {| role := "user"; content := VStr "Hello" |};
                                   {| role := "assistant"; content := VStr "Hi there" |} ];
                     conversationId := VStr "session-1730000000000" |})).
    { vm_compute. reflexivity. }
    specialize (H (Samples.world Samples.greeting) "Hello" "" Omitted
                  (Some Samples.sample_context) _ _ Hrun).
    discriminate H.
  - pose (call := chatWithAI index_js "Hello" (Given "conv-7") Omitted
                    (Some Samples.index_context)).
    assert (Hrun : run (Samples.world Samples.greeting) call =
              ((run (Samples.world Samples.greeting) call).1,
               Ok {| messages := [ {| role := "user"; content := VStr "Hello" |};
                                   {| role := "assistant"; content := VStr "Hi there" |} ];
                     conversationId := VNull |})).
    { vm_compute. reflexivity. }
    specialize (H (Samples.world Samples.greeting) "Hello" "conv-7" Omitted
                  (Some Samples.index_context) _ _ Hrun).
    discriminate H.
Qed.

(** Where the shape check of the DeepSeek revisions does fire, the error is
    the format error. *)
Lemma format_guard_fires
    rev w message conversationId systemPrompt context t res r data :
  rev ≠ index_js →
  run w (chatWithAI rev message conversationId systemPrompt context) = (t, res) →
  answered w t r → ok r = true → json r = Ok data →
  DeepSeek.bad_format data = Ok true →
  res = Err UnexpectedUpstreamFormat.
Proof.
  intros Hrev Hrun Hans Hok Hjson Hbad.
  rewrite (deepseek_answered _ _ _ _ _ _ _ _ _ Hrev Hrun Hans).
  unfold settle. rewrite Hok, Hjson. cbn [negb mbind result_bind].
  assert (Hs : DeepSeek.response_structure data = Ok ()).
  { unfold DeepSeek.bad_format in Hbad. unfold DeepSeek.response_structure.
    destruct data; cbn in Hbad |- *; try discriminate; reflexivity. }
  rewrite Hs, Hbad. reflexivity.
Qed.

(** C5, at the body [{"choices": [null]}] with status 200: the DeepSeek
    revisions read [.message] off the [null] first choice and end in a
    [TypeError], not in the format error; the [index.js] revision, which
    tests [!data.choices[0]] first, ends in its format error. *)
Theorem null_first_choice_is_a_type_error :
  let w := Samples.world Samples.null_choice in
  ok Samples.null_choice = true ∧
  DeepSeek.first_content (VObj [ ("choices", VArr [ VNull ]) ])
  = Err (cannot_read "null" "message") ∧
  (run w (chatWithAI part_001 "Hello" Omitted Omitted (Some Samples.sample_context))).2
  = Err (TypeError "Cannot read properties of null (reading 'message')") ∧
  (run w (chatWithAI part_000 "Hello" Omitted Omitted (Some Samples.sample_context))).2
  = Err (TypeError "Cannot read properties of null (reading 'message')") ∧
  (run w (chatWithAI index_js "Hello" Omitted Omitted (Some Samples.index_context))).2
  = Err (IndexJs.WrappedError IndexJs.UnexpectedUpstreamFormat) ∧
  TypeError "Cannot read properties of null (reading 'message')" ≠ UnexpectedUpstreamFormat.
Proof.
  intros w. repeat split; try (vm_compute; reflexivity). discriminate.
Qed.

(** C7. In every revision an OPTIONS request is answered with status 204
    and [Access-Control-Allow-Origin: *], and the GraphQL layer is not
    called. *)
Theorem preflight_answered rev w request env :
  req_method request = "OPTIONS" →
  ∃ t r, run w (handler rev request env) = (t, Ok r) ∧
    res_status r = 204%Z ∧
    headers_get (res_headers r) "Access-Control-Allow-Origin" = Some "*" ∧
    res_body r = NoBody ∧
    yoga_calls t = [].
Proof.
  destruct request as [m u]. cbn [req_method]. intros ->.
  destruct rev; eexists _, Part001.preflight;
    (split; [reflexivity|]); repeat split; vm_compute; reflexivity.
Qed.

Lemma preflight_answered_witness :
  req_method Samples.preflight_request = "OPTIONS" ∧
  ∃ t r, run (Samples.world Samples.greeting)
             (handler part_001 Samples.preflight_request (Some Samples.sample_env_object))
         = (t, Ok r) ∧
    res_status r = 204%Z ∧
    headers_get (res_headers r) "Access-Control-Allow-Origin" = Some "*" ∧
    res_body r = NoBody ∧
    yoga_calls t = [].
Proof.
  split; [reflexivity|].
  apply (preflight_answered part_001 (Samples.world Samples.greeting)
           Samples.preflight_request (Some Samples.sample_env_object)).
  reflexivity.
Defined.

(** C8, as the code has it. [ping] returns a constant string: "pong" in
    [part_001] and [index.js], "hello, xiaopangza test" in [part_000]. *)
Theorem ping_is_constant :
  ping part_001 = "pong" ∧ ping index_js = "pong" ∧
  ping part_000 = "hello, xiaopangza test".
Proof. repeat split. Qed.

(** C8 as stated fails in [part_000]. *)
Lemma ping_not_always_pong : ¬ ∀ rev, ping rev = "pong".
Proof. intros H. specialize (H part_000). discriminate H. Qed.



(** ** Further properties of the handlers *)

Lemma on_thrown_run w v :
  run w (Part001.on_thrown v) =
  ([EConsole LError "Unhandled error in fetch:"],
   message ← get v "message";
   let errorMessage := if truthy message then message else VStr "Unknown server error" in
   classified ← (found ← method_includes "errorMessage" errorMessage "余额不足";
                 if found : bool then Ok true
                 else method_includes "errorMessage" errorMessage "Insufficient Balance");
   Ok (if classified : bool
       then Part001.error_envelope "🚫 API 账户余额不足，请充值后再试" "INSUFFICIENT_BALANCE"
              (iso_clock w)
       else Part001.error_envelope_of errorMessage "SERVER_ERROR" (iso_clock w))).
Proof.
  unfold Part001.on_thrown.
  destruct (get v "message") as [m|e]; [|reflexivity].
  cbn [lift mbind prog_bind result_bind bind console_error run].
  destruct (method_includes "errorMessage" _ "余额不足") as [[]|e];
    cbn [lift mbind prog_bind result_bind bind run toISOString]; try reflexivity.
  destruct (method_includes "errorMessage" _ "Insufficient Balance") as [[]|e]; reflexivity.
Qed.

Lemma index_on_thrown_run w v :
  run w (IndexJs.on_thrown v) =
  ([EConsole LError "Error handling request:"],
   message ← get v "message";
   Ok (IndexJs.error_envelope_of (if truthy message then message else VStr "未知错误"))).
Proof.
  unfold IndexJs.on_thrown. destruct (get v "message") as [m|e]; reflexivity.
Qed.

(** Every run of a handler, spelled out by route. *)
Lemma handler_run rev w request env :
  run w (handler rev request env) =
  let log := match rev with index_js => [EConsole LLog "Received request:"] | _ => [] end in
  if String.eqb (req_method request) "OPTIONS" then (log, Ok Part001.preflight)
  else if reaches_graphql rev request then
    match yoga w request env with
    | YogaReplied y =>
        ((log ++ [EYoga request])%list,
         Ok {| res_status := res_status y;
               res_statusText := res_statusText y;
               res_headers := Part001.with_cors (res_headers y);
               res_body := res_body y |})
    | YogaThrew e =>
        match rev with
        | index_js =>
            ((log ++ [EYoga request; EConsole LError "Error handling request:"])%list,
             Ok (IndexJs.error_envelope
                   (if String.eqb (message_of e) "" then "未知错误" else message_of e)))
        | _ =>
            ([EYoga request; EConsole LError "Unhandled error in fetch:"],
             result_of w (Part001.on_error e))
        end
    | YogaThrewValue v =>
        match rev with
        | index_js =>
            ((log ++ [EYoga request; EConsole LError "Error handling request:"])%list,
             result_of w (IndexJs.on_thrown v))
        | _ =>
            ([EYoga request; EConsole LError "Unhandled error in fetch:"],
             result_of w (Part001.on_thrown v))
        end
    end
  else
    ([], Ok {| res_status := 200;
               res_statusText := "";
               res_headers := headers_of [ ("Content-Type", "application/json");
                                           ("Access-Control-Allow-Origin", "*") ];
               res_body := Json (Part001.env_report env (iso_clock w)) |}).
Proof.
  unfold reaches_graphql.
  destruct rev; unfold handler, Part001.fetch, Part000.fetch, IndexJs.fetch;
    destruct (String.eqb (req_method request) "OPTIONS"); try reflexivity;
    cbn [negb andb].
  - destruct (includes (req_url request) "/env-check"); [reflexivity|].
    cbn [negb]. unfold try_yoga_fetch, result_of. cbn [run].
    destruct (yoga w request env) as [e|v|y]; [| |reflexivity].
    + cbn -[Part001.error_envelope includes]. destruct (_ || _); reflexivity.
    + rewrite on_thrown_run. reflexivity.
  - unfold try_yoga_fetch, result_of. cbn [run].
    destruct (yoga w request env) as [e|v|y]; [| |reflexivity].
    + cbn -[Part001.error_envelope includes]. destruct (_ || _); reflexivity.
    + rewrite on_thrown_run. reflexivity.
  - unfold try_yoga_fetch, result_of. cbn [run mbind prog_bind bind console_log].
    destruct (yoga w request env) as [e|v|y]; [| |reflexivity].
    + reflexivity.
    + rewrite index_on_thrown_run. reflexivity.
Qed.

Lemma on_error_result w e :
  result_of w (Part001.on_error e) =
  Ok (let errorMessage :=
        if String.eqb (message_of e) "" then "Unknown server error" else message_of e in
      if includes errorMessage "余额不足" || includes errorMessage "Insufficient Balance"
      then Part001.error_envelope "🚫 API 账户余额不足，请充值后再试" "INSUFFICIENT_BALANCE"
             (iso_clock w)
      else Part001.error_envelope errorMessage "SERVER_ERROR" (iso_clock w)).
Proof.
  unfold Part001.on_error, result_of.
  cbn -[Part001.error_envelope includes]. destruct (_ || _); reflexivity.
Qed.

(** X1. The handler of every revision never calls the upstream itself, and
    it answers with a [Response] whenever the request is not handed to
    [yoga.fetch], whenever [yoga.fetch] replies, and whenever it rejects
    with an Error object or with a value whose [message] is missing, falsy
    or a string (status 500 then). When [yoga.fetch] rejects with [null] or
    [undefined], reading [error.message] in the [catch] throws, and the
    handler itself rejects with that [TypeError]. *)
Theorem handler_responds_unless_catch_throws rev w request env :
  fetches (trace_of w (handler rev request env)) = [] ∧
  (reaches_graphql rev request = false →
   ∃ r, result_of w (handler rev request env) = Ok r) ∧
  (∀ y, yoga w request env = YogaReplied y →
   ∃ r, result_of w (handler rev request env) = Ok r) ∧
  (∀ e, yoga w request env = YogaThrew e →
   ∃ r, result_of w (handler rev request env) = Ok r) ∧
  (∀ v message,
     reaches_graphql rev request = true →
     yoga w request env = YogaThrewValue v →
     get v "message" = Ok message →
     truthy message = false ∨ (∃ s, message = VStr s) →
     ∃ r, result_of w (handler rev request env) = Ok r ∧ res_status r = 500%Z) ∧
  (∀ v,
     reaches_graphql rev request = true →
     yoga w request env = YogaThrewValue v →
     v = VNull ∨ v = VUndefined →
     ∃ msg, result_of w (handler rev request env) = Err (TypeError msg)).
Proof.
  unfold result_of, trace_of. rewrite handler_run. cbn zeta.
  destruct (String.eqb (req_method request) "OPTIONS") eqn:Hm.
  { assert (Hr : reaches_graphql rev request = false)
      by (unfold reaches_graphql; rewrite Hm; reflexivity).
    rewrite Hr. destruct rev; cbn; repeat split; eauto; intros; discriminate. }
  destruct (reaches_graphql rev request) eqn:Hr.
  2: { cbn. repeat split; eauto; intros; discriminate. }
  destruct (yoga w request env) as [e|v|y].
  - split; [destruct rev; reflexivity|].
    split; [discriminate|]. split; [discriminate|].
    split; [|split; intros; discriminate].
    intros e' _. destruct rev; cbn [fst snd]; rewrite ?on_error_result; eauto.
  - split; [destruct rev; reflexivity|].
    split; [discriminate|]. split; [discriminate|]. split; [discriminate|]. split.
    + intros v' message _ [= <-] Hget Hshape.
      destruct rev; cbn [fst snd]; unfold result_of;
        rewrite ?on_thrown_run, ?index_on_thrown_run; cbn [fst snd];
        rewrite Hget; cbn [mbind result_bind].
      1,2: destruct Hshape as [Hfalsy|[s ->]];
        [ rewrite Hfalsy; cbn; eexists; split; reflexivity
        | destruct (truthy (VStr s)); cbn [method_includes mbind result_bind];
          repeat (destruct (includes _ _); cbn [mbind result_bind]);
          eexists; split; reflexivity ].
      eexists. split; reflexivity.
    + intros v' _ [= <-] Hnull.
      destruct rev; cbn [fst snd]; unfold result_of;
        rewrite ?on_thrown_run, ?index_on_thrown_run; cbn [fst snd];
        destruct Hnull as [-> | ->]; cbn; eexists; reflexivity.
  - split; [destruct rev; reflexivity|].
    split; [discriminate|]. split; [|split; [|split]]; try (intros; discriminate).
    intros y' _. destruct rev; cbn; eauto.
Qed.

Lemma handler_responds_unless_catch_throws_witness :
  let request := {| req_method := "POST"; req_url := "https://worker.example/" |} in
  let rejecting v := {| upstream := λ _, Rejected (TypeError "unused"); clock := 0;
                        iso_clock := ""; yoga := λ _ _, YogaThrewValue v |} in
  (∃ msg, result_of (rejecting VNull) (handler part_001 request None)
          = Err (TypeError msg)) ∧
  (∃ r, result_of (rejecting (VStr "boom")) (handler part_001 request None) = Ok r ∧
        res_status r = 500%Z).
Proof.
  intros request rejecting. split.
  - destruct (handler_responds_unless_catch_throws part_001 (rejecting VNull) request None)
      as (_ & _ & _ & _ & _ & Hnull).
    apply (Hnull VNull); [reflexivity | reflexivity | left; reflexivity].
  - destruct (handler_responds_unless_catch_throws part_001 (rejecting (VStr "boom"))
                request None) as (_ & _ & _ & _ & Hvalue & _).
    apply (Hvalue (VStr "boom") VUndefined);
      [reflexivity | reflexivity | reflexivity | left; reflexivity].
Defined.

(** X2. The handler calls [yoga.fetch] exactly once, with the request it
    was given, when the request is neither an OPTIONS request nor (in
    [part_001]) one for [/env-check]; otherwise it does not call it. *)
Theorem graphql_called_once_when_routed rev w request env :
  yoga_calls (trace_of w (handler rev request env)) =
  if reaches_graphql rev request then [request] else [].
Proof.
  unfold trace_of. rewrite handler_run. cbn zeta. unfold reaches_graphql.
  destruct (String.eqb _ _); cbn [negb andb]; [destruct rev; reflexivity|].
  destruct rev; cbn [negb andb].
  - destruct (includes _ _); cbn [negb]; [reflexivity|].
    destruct (yoga w request env); reflexivity.
  - destruct (yoga w request env); reflexivity.
  - destruct (yoga w request env); reflexivity.
Qed.

Lemma headers_get_set (h : gmap string string) (name name' v : string) :
  headers_get (headers_set name v h) name' =
  if decide (lower name = lower name') then Some v else headers_get h name'.
Proof. unfold headers_get, headers_set. apply lookup_insert. Qed.

(** X3. When [yoga.fetch] replies, the handler passes status, status text
    and body through, forces the three CORS headers to its own values
    whatever the reply carried under those names (in any letter case), and
    keeps every other header of the reply. *)
Theorem reply_passes_through_with_cors rev w request env y :
  reaches_graphql rev request = true →
  yoga w request env = YogaReplied y →
  ∃ r, result_of w (handler rev request env) = Ok r ∧
    res_status r = res_status y ∧
    res_statusText r = res_statusText y ∧
    res_body r = res_body y ∧
    headers_get (res_headers r) "Access-Control-Allow-Origin" = Some "*" ∧
    headers_get (res_headers r) "Access-Control-Allow-Methods" = Some "GET, POST, OPTIONS" ∧
    headers_get (res_headers r) "Access-Control-Allow-Headers"
      = Some "Content-Type, Authorization" ∧
    ∀ name,
      lower name ≠ "access-control-allow-origin" →
      lower name ≠ "access-control-allow-methods" →
      lower name ≠ "access-control-allow-headers" →
      headers_get (res_headers r) name = headers_get (res_headers y) name.
Proof.
  intros Hroute Hy. unfold result_of. rewrite handler_run. cbn zeta.
  assert (Hm : String.eqb (req_method request) "OPTIONS" = false).
  { unfold reaches_graphql in Hroute. destruct (String.eqb _ _); [discriminate|reflexivity]. }
  rewrite Hm, Hroute, Hy. cbn [fst snd].
  eexists. split; [reflexivity|]. cbn [res_status res_statusText res_body res_headers].
  unfold Part001.with_cors.
  repeat split; try (rewrite !headers_get_set; reflexivity).
  intros name H1 H2 H3. rewrite !headers_get_set.
  change (lower "Access-Control-Allow-Origin") with "access-control-allow-origin".
  change (lower "Access-Control-Allow-Methods") with "access-control-allow-methods".
  change (lower "Access-Control-Allow-Headers") with "access-control-allow-headers".
  repeat (destruct (decide _) as [Heq|_]; [congruence|]). reflexivity.
Qed.

Lemma reply_passes_through_with_cors_witness :
  let y := {| res_status := 200; res_statusText := "OK";
              res_headers := {[ "access-control-allow-origin" := "https://app.example";
                                "content-type" := "application/json" ]};
              res_body := Raw "{}" |} in
  let w := {| upstream := λ _, Rejected (TypeError "unused"); clock := 0;
              iso_clock := ""; yoga := λ _ _, YogaReplied y |} in
  let request := {| req_method := "POST"; req_url := "https://worker.example/" |} in
  ∃ r, result_of w (handler part_001 request None) = Ok r ∧
    res_status r = 200%Z ∧
    headers_get (res_headers r) "Access-Control-Allow-Origin" = Some "*" ∧
    headers_get (res_headers r) "Content-Type" = Some "application/json".
Proof.
  intros y w request.
  destruct (reply_passes_through_with_cors part_001 w request None y eq_refl eq_refl)
    as (r & Hr & Hs & _ & _ & Ho & _ & _ & Hkeep).
  exists r. split; [exact Hr|]. split; [exact Hs|]. split; [exact Ho|].
  rewrite Hkeep by (vm_compute; discriminate). reflexivity.
Defined.

(** X4. When [yoga.fetch] throws in a DeepSeek revision, the handler
    answers 500 with a JSON envelope: code INSUFFICIENT_BALANCE and the
    fixed balance message when the error's message (or "Unknown server
    error" for an empty one) contains "余额不足" or "Insufficient Balance",
    code SERVER_ERROR and the message itself otherwise; the timestamp is the
    current time. *)
Theorem yoga_failure_becomes_envelope rev w request env e :
  rev ≠ index_js →
  reaches_graphql rev request = true →
  yoga w request env = YogaThrew e →
  let errorMessage :=
    if String.eqb (message_of e) "" then "Unknown server error" else message_of e in
  ∃ r, result_of w (handler rev request env) = Ok r ∧
    res_status r = 500%Z ∧
    headers_get (res_headers r) "Content-Type" = Some "application/json" ∧
    headers_get (res_headers r) "Access-Control-Allow-Origin" = Some "*" ∧
    (contains errorMessage "余额不足" ∨ contains errorMessage "Insufficient Balance" →
     res_body r = Json (VObj [ ("errors", VArr [ VObj [
       ("message", VStr "🚫 API 账户余额不足，请充值后再试");
       ("extensions", VObj [ ("code", VStr "INSUFFICIENT_BALANCE");
                             ("timestamp", VStr (iso_clock w)) ]) ] ]) ])) ∧
    (¬ contains errorMessage "余额不足" →
     ¬ contains errorMessage "Insufficient Balance" →
     res_body r = Json (VObj [ ("errors", VArr [ VObj [
       ("message", VStr errorMessage);
       ("extensions", VObj [ ("code", VStr "SERVER_ERROR");
                             ("timestamp", VStr (iso_clock w)) ]) ] ]) ])).
Proof.
  intros Hrev Hroute Hy errorMessage. unfold result_of. rewrite handler_run. cbn zeta.
  assert (Hm : String.eqb (req_method request) "OPTIONS" = false).
  { unfold reaches_graphql in Hroute. destruct (String.eqb _ _); [discriminate|reflexivity]. }
  rewrite Hm, Hroute, Hy.
  destruct rev; [| |congruence]; cbn [fst snd]; rewrite on_error_result; cbn zeta;
    fold errorMessage.
  all: eexists; split; [reflexivity|].
  all: destruct (includes errorMessage "余额不足") eqn:H1;
       destruct (includes errorMessage "Insufficient Balance") eqn:H2; cbn [orb].
  all: split; [reflexivity|]; split; [vm_compute; reflexivity|];
       split; [vm_compute; reflexivity|]; split.
  all: try (intros; reflexivity).
  all: try (intros [H|H]; apply includes_contains in H; congruence).
  all: intros N1 N2; exfalso;
       first [ apply N1; apply includes_contains; assumption
             | apply N2; apply includes_contains; assumption ].
Qed.

Lemma yoga_failure_becomes_envelope_witness :
  let w := {| upstream := λ _, Rejected (TypeError "unused"); clock := 0;
              iso_clock := "2024-10-27T03:33:20.000Z";
              yoga := λ _ _, YogaThrew InsufficientBalance |} in
  let request := {| req_method := "POST"; req_url := "https://worker.example/" |} in
  ∃ r, result_of w (handler part_000 request None) = Ok r ∧
    res_status r = 500%Z ∧
    res_body r = Json (VObj [ ("errors", VArr [ VObj [
      ("message", VStr "🚫 API 账户余额不足，请充值后再试");
      ("extensions", VObj [ ("code", VStr "INSUFFICIENT_BALANCE");
                            ("timestamp", VStr "2024-10-27T03:33:20.000Z") ]) ] ]) ]).
Proof.
  intros w request.
  destruct (yoga_failure_becomes_envelope part_000 w request None InsufficientBalance
              ltac:(discriminate) eq_refl eq_refl)
    as (r & Hr & Hs & _ & _ & Hbal & _).
  exists r. split; [exact Hr|]. split; [exact Hs|].
  apply Hbal. left. apply includes_contains. vm_compute. reflexivity.
Defined.

(** X5. The [index.js] handler does not classify: when [yoga.fetch] throws
    it answers 500 with the error's message as it is ("未知错误" for an empty
    one) and no [extensions], also for an insufficient-balance message. *)
Theorem index_failure_is_reported_verbatim w request env e :
  req_method request ≠ "OPTIONS" →
  yoga w request env = YogaThrew e →
  ∃ r, result_of w (handler index_js request env) = Ok r ∧
    res_status r = 500%Z ∧
    headers_get (res_headers r) "Access-Control-Allow-Origin" = Some "*" ∧
    res_body r = Json (VObj [ ("errors", VArr [ VObj [
      ("message", VStr (if String.eqb (message_of e) "" then "未知错误"
                        else message_of e)) ] ]) ]).
Proof.
  intros Hm Hy. unfold result_of. rewrite handler_run. cbn zeta.
  apply String.eqb_neq in Hm. unfold reaches_graphql. rewrite Hm, Hy. cbn [negb andb fst snd].
  eexists. split; [reflexivity|]. split; [reflexivity|]. split; [vm_compute|]; reflexivity.
Qed.

Lemma index_failure_is_reported_verbatim_witness :
  let w := {| upstream := λ _, Rejected (TypeError "unused"); clock := 0;
              iso_clock := ""; yoga := λ _ _, YogaThrew InsufficientBalance |} in
  let request := {| req_method := "POST"; req_url := "https://worker.example/" |} in
  ∃ r, result_of w (handler index_js request None) = Ok r ∧
    res_status r = 500%Z ∧
    res_body r = Json (VObj [ ("errors", VArr [ VObj [
      ("message", VStr "API 账户余额不足，请充值后再试") ] ]) ]).
Proof.
  intros w request.
  destruct (index_failure_is_reported_verbatim w request None InsufficientBalance
              ltac:(discriminate) eq_refl) as (r & Hr & Hs & _ & Hb).
  exists r. split; [exact Hr|]. split; [exact Hs | exact Hb].
Defined.

Lemma env_get_fmap (key : string) (e : EnvObject) (f : string → string) :
  env_get key (prod_map id f <$> e) = f <$> env_get key e.
Proof.
  induction e as [|[k v] rest IH]; cbn; [reflexivity|].
  destruct (String.eqb key k); [reflexivity | exact IH].
Qed.

Lemma env_keys_fmap (e : EnvObject) (f : string → string) :
  (prod_map id f <$> e).*1 = e.*1.
Proof.
  rewrite <- list_fmap_compose. apply list_fmap_ext. intros i [k v] _. reflexivity.
Qed.

(** X6. The [/env-check] endpoint of [part_001] answers 200 with a report
    of the binding names in the order of [Object.keys], a flag for the API
    key, the URL and the model, and no other binding value: replacing the
    values of the bindings (the API key among them), empty staying empty
    and URL and model staying as they are, leaves the response unchanged. *)
Theorem env_check_hides_values w request (e : EnvObject) (f : string → string) :
  req_method request ≠ "OPTIONS" →
  contains (req_url request) "/env-check" →
  (∀ s, f s = "" ↔ s = "") →
  f <$> env_get "DEEPSEEK_API_URL" e = env_get "DEEPSEEK_API_URL" e →
  f <$> env_get "DEEPSEEK_MODEL" e = env_get "DEEPSEEK_MODEL" e →
  ∃ r, result_of w (handler part_001 request (Some e)) = Ok r ∧
       result_of w (handler part_001 request (Some (prod_map id f <$> e))) = Ok r ∧
       res_status r = 200%Z ∧
       res_body r = Json (VObj [
         ("envAvailable", VBool true);
         ("envKeys", VArr (VStr <$> e.*1));
         ("hasApiKey",
          VBool (match env_get "DEEPSEEK_API_KEY" e with
                 | Some key => negb (String.eqb key "")
                 | None => false
                 end));
         ("apiUrl",
          VStr (match env_get "DEEPSEEK_API_URL" e with
                | Some u => if String.eqb u "" then "not set" else u
                | None => "not set"
                end));
         ("model",
          VStr (match env_get "DEEPSEEK_MODEL" e with
                | Some m => if String.eqb m "" then "not set" else m
                | None => "not set"
                end));
         ("timestamp", VStr (iso_clock w)) ]).
Proof.
  intros Hm Hu%includes_contains Hf Hurl Hmodel.
  apply String.eqb_neq in Hm.
  unfold result_of. rewrite !handler_run. cbn zeta. unfold reaches_graphql.
  rewrite Hm, Hu. cbn [negb andb fst snd].
  assert (Hsame : Part001.env_report (Some (prod_map id f <$> e)) (iso_clock w)
                  = Part001.env_report (Some e) (iso_clock w)).
  { unfold Part001.env_report. cbn [from_option].
    rewrite env_keys_fmap, !env_get_fmap, Hurl, Hmodel.
    assert (Hkey : truthy (binding (f <$> env_get "DEEPSEEK_API_KEY" e))
                   = truthy (binding (env_get "DEEPSEEK_API_KEY" e))).
    { destruct (env_get "DEEPSEEK_API_KEY" e) as [s|]; [|reflexivity].
      cbn. destruct (String.eqb_spec s ""), (String.eqb_spec (f s) ""); try reflexivity.
      - exfalso. apply n. apply Hf. assumption.
      - exfalso. apply n. apply Hf. assumption. }
    rewrite Hkey.
    rewrite (bool_decide_true (is_Some (Some (prod_map id f <$> e)))) by eauto.
    rewrite (bool_decide_true (is_Some (Some e))) by eauto.
    reflexivity. }
  rewrite Hsame. eexists. split; [reflexivity|]. split; [reflexivity|].
  split; [reflexivity|]. cbn [res_body]. unfold Part001.env_report. cbn [from_option].
  rewrite (bool_decide_true (is_Some (Some e))) by eauto.
  destruct (env_get "DEEPSEEK_API_KEY" e), (env_get "DEEPSEEK_API_URL" e),
    (env_get "DEEPSEEK_MODEL" e); reflexivity.
Qed.

Lemma env_check_hides_values_witness :
  let e : EnvObject := [ ("DEEPSEEK_MODEL", "deepseek-chat"); ("DEEPSEEK_API_KEY", "sk-one") ] in
  let f := λ s : string, if String.eqb s "sk-one" then "sk-two" else s in
  let request := {| req_method := "GET"; req_url := "https://worker.example/env-check" |} in
  let w := Samples.world Samples.greeting in
  prod_map id f <$> e
    = [ ("DEEPSEEK_MODEL", "deepseek-chat"); ("DEEPSEEK_API_KEY", "sk-two") ] ∧
  ∃ r, result_of w (handler part_001 request (Some e)) = Ok r ∧
       result_of w (handler part_001 request (Some (prod_map id f <$> e))) = Ok r ∧
       res_body r = Json (VObj [
         ("envAvailable", VBool true);
         ("envKeys", VArr [ VStr "DEEPSEEK_MODEL"; VStr "DEEPSEEK_API_KEY" ]);
         ("hasApiKey", VBool true);
         ("apiUrl", VStr "not set");
         ("model", VStr "deepseek-chat");
         ("timestamp", VStr "2024-10-27T03:33:20.000Z") ]).
Proof.
  intros e f request w. split; [reflexivity|].
  destruct (env_check_hides_values w request e f) as (r & H1 & H2 & _ & Hbody).
  - discriminate.
  - apply includes_contains. vm_compute. reflexivity.
  - intros s. unfold f. destruct (String.eqb_spec s "sk-one") as [->|]; [|tauto].
    split; discriminate.
  - reflexivity.
  - reflexivity.
  - exists r. split; [exact H1|]. split; [exact H2 | exact Hbody].
Defined.

(** ** Further properties of the resolvers *)

Lemma index_no_env w message conversationId context :
  (∀ c, context = Some c → env c = None) →
  run w (IndexJs.chatWithAI message conversationId context) =
  ([], Err (match context with
            | None => TypeError
                "Cannot destructure property 'request' of 'context' as it is undefined."
            | Some _ => cannot_read "undefined" "AI_API_KEY"
            end)).
Proof.
  intros Hc. unfold IndexJs.chatWithAI.
  destruct context as [c|]; [rewrite (Hc c eq_refl)|]; reflexivity.
Qed.

Lemma index_answered w message conversationId context t res r :
  run w (IndexJs.chatWithAI message conversationId context) = (t, res) →
  answered w t r →
  res = wrap (settle_index message r).
Proof.
  intros Hrun (req & Hreq & Hup).
  destruct context as [c|].
  - destruct (env c) as [e|] eqn:He.
    + apply run_pair in Hrun as [Ht Hres]. subst t.
      rewrite (index_fetches _ _ _ _ _ He) in Hreq. injection Hreq as <-.
      rewrite (index_result _ _ _ _ _ He), Hup in Hres. cbn [awaited] in Hres. congruence.
    + rewrite index_no_env in Hrun by (intros ? [= <-]; exact He).
      injection Hrun as <- _. discriminate Hreq.
  - rewrite index_no_env in Hrun by (intros ? [=]).
    injection Hrun as <- _. discriminate Hreq.
Qed.

(** X7. When the upstream call is rejected (a network failure), a DeepSeek
    revision fails with that very error and [index.js] with the error
    wrapped in its prefix; one call was made and none is retried. *)
Theorem fetch_rejection_propagates
    rev w message conversationId systemPrompt context e err :
  env context = Some e →
  (rev ≠ index_js → is_set (API_KEY rev context) = true) →
  (∀ req, upstream w req = Rejected err) →
  result_of w (chatWithAI rev message conversationId systemPrompt (Some context)) =
    Err (match rev with index_js => IndexJs.WrappedError err | _ => err end) ∧
  length (fetches (trace_of w
            (chatWithAI rev message conversationId systemPrompt (Some context)))) = 1.
Proof.
  intros He Hk Hup.
  assert (Hcases : rev ≠ index_js ∨ rev = index_js) by (destruct rev; auto; left; discriminate).
  destruct Hcases as [Hrev| ->].
  - rewrite (deepseek_result _ _ _ _ _ _ e Hrev He), (deepseek_fetches _ _ _ _ _ _ e Hrev He).
    rewrite (Hk Hrev), Hup. destruct rev; [| |congruence]; split; reflexivity.
  - cbn [chatWithAI]. rewrite (index_result _ _ _ _ _ He), (index_fetches _ _ _ _ _ He), Hup.
    split; reflexivity.
Qed.

Lemma fetch_rejection_propagates_witness :
  let w := {| upstream := λ _, Rejected (TypeError "fetch failed"); clock := 0;
              iso_clock := ""; yoga := λ _ _, YogaThrew (Error "unused") |} in
  result_of w (chatWithAI part_001 "Hello" Omitted Omitted (Some Samples.sample_context))
  = Err (TypeError "fetch failed") ∧
  result_of w (chatWithAI index_js "Hello" Omitted Omitted (Some Samples.index_context))
  = Err (Error "调用 AI API 时出错: fetch failed").
Proof.
  intros w. split.
  - apply (fetch_rejection_propagates part_001 w "Hello" Omitted Omitted
             Samples.sample_context Samples.sample_env (TypeError "fetch failed"));
      [reflexivity | intros _; reflexivity | intros req; reflexivity].
  - apply (fetch_rejection_propagates index_js w "Hello" Omitted Omitted
             Samples.index_context
             {[ "AI_API_KEY" := "sk-test"; "AI_API_URL" := "https://ai.example/chat" ]}
             (TypeError "fetch failed"));
      [reflexivity | intros H; contradiction H; reflexivity | intros req; reflexivity].
Defined.

(** X8. When a success response has a body that does not parse as JSON, a
    DeepSeek revision fails with the parser's error and [index.js] with that
    error wrapped; neither reports a format error or a reply. *)
Theorem unparsable_body_propagates
    rev w message conversationId systemPrompt context t res r err :
  run w (chatWithAI rev message conversationId systemPrompt context) = (t, res) →
  answered w t r → ok r = true → json r = Err err →
  res = Err (match rev with index_js => IndexJs.WrappedError err | _ => err end).
Proof.
  intros Hrun Hans Hok Hjson.
  assert (Hcases : rev ≠ index_js ∨ rev = index_js) by (destruct rev; auto; left; discriminate).
  destruct Hcases as [Hrev| ->].
  - rewrite (deepseek_answered _ _ _ _ _ _ _ _ _ Hrev Hrun Hans).
    unfold settle. rewrite Hok, Hjson. destruct rev; [| |congruence]; reflexivity.
  - rewrite (index_answered _ _ _ _ _ _ _ Hrun Hans).
    unfold settle_index. rewrite Hok, Hjson. reflexivity.
Qed.

Lemma unparsable_body_propagates_witness :
  let r := {| status := 200; text := "<html>";
              json := Err (SyntaxError "Unexpected token '<'") |} in
  let w := Samples.world r in
  answered w (run w (chatWithAI part_000 "Hello" Omitted Omitted
                       (Some Samples.sample_context))).1 r ∧
  (run w (chatWithAI part_000 "Hello" Omitted Omitted (Some Samples.sample_context))).2
  = Err (SyntaxError "Unexpected token '<'").
Proof.
  intros r w.
  assert (Hans : answered w (run w (chatWithAI part_000 "Hello" Omitted Omitted
                                      (Some Samples.sample_context))).1 r).
  { eexists. split; [vm_compute; reflexivity | reflexivity]. }
  split; [exact Hans|].
  apply (unparsable_body_propagates part_000 w "Hello" Omitted Omitted
           (Some Samples.sample_context) _ _ r (SyntaxError "Unexpected token '<'")
           (surjective_pairing _) Hans eq_refl eq_refl).
Defined.

(** X9. Every outbound call of a DeepSeek revision carries exactly two
    headers: [Content-Type: application/json] and [Authorization: Bearer]
    followed by the API key the revision read, which is not empty. *)
Theorem outbound_request_is_authorized
    rev w message conversationId systemPrompt context t res req :
  rev ≠ index_js →
  run w (chatWithAI rev message conversationId systemPrompt context) = (t, res) →
  req ∈ fetches t →
  ∃ c key, context = Some c ∧ API_KEY rev c = Some key ∧ key ≠ "" ∧
    headers req = [ ("Content-Type", "application/json");
                    ("Authorization", "Bearer " +:+ key) ].
Proof.
  intros Hrev [Ht Hres]%run_pair Hin. subst t.
  destruct (deepseek_single_call _ _ _ _ _ _ _ Hrev Hin) as (c & e & -> & He & Hk & -> & _).
  unfold is_set in Hk. destruct (API_KEY rev c) as [key|] eqn:Hkey; [|discriminate].
  exists c, key. split; [reflexivity|]. split; [exact Hkey|]. split.
  - intros ->. discriminate Hk.
  - unfold outbound. rewrite Hkey. reflexivity.
Qed.

Lemma outbound_request_is_authorized_witness :
  let w := Samples.world Samples.greeting in
  let call := chatWithAI part_001 "Hello" Omitted Omitted (Some Samples.sample_context) in
  ∃ req, req ∈ fetches (run w call).1 ∧
    headers req = [ ("Content-Type", "application/json");
                    ("Authorization", "Bearer sk-test") ].
Proof.
  intros w call.
  exists (outbound part_001 Samples.sample_context Samples.sample_env "Hello" Omitted).
  assert (Hin : outbound part_001 Samples.sample_context Samples.sample_env "Hello" Omitted
                ∈ fetches (run w call).1).
  { vm_compute. apply list_elem_of_here. }
  split; [exact Hin|].
  destruct (outbound_request_is_authorized part_001 w "Hello" Omitted Omitted
              (Some Samples.sample_context) (run w call).1 (run w call).2 _
              ltac:(discriminate) (surjective_pairing _) Hin)
    as (c & key & Hc & Hkey & _ & Hheaders).
  injection Hc as <-. vm_compute in Hkey. injection Hkey as <-. exact Hheaders.
Defined.

(** X10. A DeepSeek revision never sends the caller's [conversationId]
    upstream: the outbound calls of a run are the same whatever
    [conversationId] is, and the request body has no such field. *)
Theorem conversation_id_stays_local
    rev w message systemPrompt context conversationId conversationId' :
  rev ≠ index_js →
  fetches (trace_of w (chatWithAI rev message conversationId systemPrompt context)) =
  fetches (trace_of w (chatWithAI rev message conversationId' systemPrompt context)) ∧
  ∀ req,
    req ∈ fetches (trace_of w (chatWithAI rev message conversationId systemPrompt context)) →
    get (body req) "conversationId" = Ok VUndefined.
Proof.
  intros Hrev. split.
  - destruct context as [c|].
    + destruct (env c) as [e|] eqn:He.
      * rewrite !(deepseek_fetches _ _ _ _ _ _ e Hrev He). reflexivity.
      * destruct (deepseek_no_env rev w message conversationId systemPrompt (Some c) Hrev)
          as [-> _]; [intros ? [= <-]; exact He|].
        destruct (deepseek_no_env rev w message conversationId' systemPrompt (Some c) Hrev)
          as [-> _]; [intros ? [= <-]; exact He|]. reflexivity.
    + destruct (deepseek_no_env rev w message conversationId systemPrompt None Hrev)
        as [-> _]; [intros ? [=]|].
      destruct (deepseek_no_env rev w message conversationId' systemPrompt None Hrev)
        as [-> _]; [intros ? [=]|]. reflexivity.
  - intros req Hin.
    destruct (deepseek_single_call _ _ _ _ _ _ _ Hrev Hin) as (c & e & _ & _ & _ & -> & _).
    reflexivity.
Qed.

Lemma conversation_id_stays_local_witness :
  let w := Samples.world Samples.greeting in
  fetches (trace_of w (chatWithAI part_001 "Hello" (Given "conv-7") Omitted
                         (Some Samples.sample_context))) =
  fetches (trace_of w (chatWithAI part_001 "Hello" Omitted Omitted
                         (Some Samples.sample_context))).
Proof.
  intros w.
  apply (conversation_id_stays_local part_001 w "Hello" Omitted
           (Some Samples.sample_context) (Given "conv-7") Omitted).
  discriminate.
Defined.



(** X12. Whatever goes wrong inside the [try] of the [index.js] revision
    (a rejected call, an error status, an unparsable or malformed body), the
    error that leaves the resolver is a new [Error] whose message starts
    with "调用 AI API 时出错: ". *)
Theorem index_failures_are_wrapped w message conversationId systemPrompt context e x :
  env context = Some e →
  result_of w (chatWithAI index_js message conversationId systemPrompt (Some context))
  = Err x →
  ∃ inner, x = IndexJs.WrappedError inner ∧
    String.prefix "调用 AI API 时出错: " (message_of x) = true.
Proof.
  intros He. cbn [chatWithAI]. rewrite (index_result _ _ _ _ _ He).
  destruct (awaited _ _) as [resp|inner]; cbn [wrap]; [discriminate|].
  intros [= <-]. exists inner. split; [reflexivity|].
  apply prefix_append. eexists. reflexivity.
Qed.

Lemma index_failures_are_wrapped_witness :
  let w := Samples.world Samples.unavailable in
  result_of w (chatWithAI index_js "Hello" Omitted Omitted (Some Samples.index_context))
  = Err (Error "调用 AI API 时出错: AI API 响应错误 (503): upstream down") ∧
  String.prefix "调用 AI API 时出错: "
    "调用 AI API 时出错: AI API 响应错误 (503): upstream down" = true.
Proof.
  intros w.
  assert (Hres : result_of w (chatWithAI index_js "Hello" Omitted Omitted
                                (Some Samples.index_context))
                 = Err (Error "调用 AI API 时出错: AI API 响应错误 (503): upstream down")).
  { vm_compute. reflexivity. }
  split; [exact Hres|].
  destruct (index_failures_are_wrapped w "Hello" Omitted Omitted Samples.index_context
              {[ "AI_API_KEY" := "sk-test"; "AI_API_URL" := "https://ai.example/chat" ]}
              _ eq_refl Hres) as (inner & _ & Hprefix).
  exact Hprefix.
Defined.

(** X13. Without a context, or with a context that has no [env] object,
    every revision fails before any outbound call: [part_001] with its own
    errors, the second of which spells out [context.DEEPSEEK_API_KEY];
    [part_000] and [index.js] with the [TypeError] of the failed read, which
    [index.js] does not wrap because the read comes before its [try]. *)
Theorem no_env_fails_before_fetch rev w message conversationId systemPrompt context :
  (∀ c, context = Some c → env c = None) →
  fetches (trace_of w (chatWithAI rev message conversationId systemPrompt context)) = [] ∧
  ∃ x,
    result_of w (chatWithAI rev message conversationId systemPrompt context) = Err x ∧
    match rev, context with
    | part_001, None => x = Error "Context is undefined"
    | part_001, Some c =>
        x = Error ("Env object is undefined in context, is context.ley exist: "
                   +:+ template (DEEPSEEK_API_KEY c))
    | _, _ => ∃ msg, x = TypeError msg
    end.
Proof.
  intros Hc.
  destruct rev; cbn [chatWithAI];
    unfold Part001.chatWithAI, Part000.chatWithAI, IndexJs.chatWithAI;
    (destruct context as [c|]; [rewrite (Hc c eq_refl)|]);
    (split; [reflexivity|]); eexists; (split; [reflexivity|]);
    try reflexivity; eexists; reflexivity.
Qed.

Lemma no_env_fails_before_fetch_witness :
  let context := {| env := None; DEEPSEEK_API_KEY := Some "sk-test" |} in
  let w := Samples.world Samples.greeting in
  fetches (trace_of w (chatWithAI part_001 "Hello" Omitted Omitted (Some context))) = [] ∧
  result_of w (chatWithAI part_001 "Hello" Omitted Omitted (Some context)) =
  Err (Error "Env object is undefined in context, is context.ley exist: sk-test").
Proof.
  intros context w.
  destruct (no_env_fails_before_fetch part_001 w "Hello" Omitted Omitted (Some context))
    as (Hquiet & x & Hres & ->).
  - intros c [= <-]. reflexivity.
  - split; [exact Hquiet | exact Hres].
Defined.

Lemma index_bad_format_total (data : value) :
  data ≠ VNull → data ≠ VUndefined →
  ∃ bad, IndexJs.bad_format data = Ok bad ∧
    (bad = false → ∃ content, DeepSeek.first_content data = Ok content) ∧
    ∃ id, IndexJs.upstream_conversationId data = Ok id.
Proof.
  intros Hnull Hundef.
  assert (Hget : ∀ k, ∃ v, get data k = Ok v).
  { intros k. destruct data; cbn; eauto; congruence. }
  unfold IndexJs.bad_format, DeepSeek.first_content, IndexJs.upstream_conversationId.
  destruct (Hget "conversationId") as [id Hid]. rewrite Hid.
  destruct (Hget "choices") as [choices Hch]. rewrite Hch. cbn [mbind result_bind].
  destruct (truthy choices) eqn:Htc; cbn [negb].
  - assert (∃ first, get_index choices 0 = Ok first) as [first Hfirst].
    { destruct choices; cbn in Htc |- *; eauto; discriminate. }
    rewrite Hfirst. cbn [mbind result_bind].
    destruct (truthy first) eqn:Htf; cbn [negb].
    + destruct (get_truthy first "message" Htf) as [msg Hmsg]. rewrite Hmsg.
      cbn [mbind result_bind]. eexists. split; [reflexivity|]. split; [|eauto].
      intros Hbad%negb_false_iff.
      destruct (get_truthy msg "content" Hbad) as [content Hcontent]. eauto.
    + eexists. split; [reflexivity|]. split; [discriminate | eauto].
  - eexists. split; [reflexivity|]. split; [discriminate | eauto].
Qed.

(** X14. The shape check of the [index.js] revision leaves no gap for a
    parsed body other than [null]: the call then either succeeds or fails
    with the wrapped format error, never with a [TypeError] from reading the
    reply. *)
Theorem index_guard_is_total
    w message conversationId systemPrompt context t res r data :
  run w (chatWithAI index_js message conversationId systemPrompt context) = (t, res) →
  answered w t r → ok r = true → json r = Ok data →
  data ≠ VNull → data ≠ VUndefined →
  (∃ resp, res = Ok resp) ∨
  res = Err (IndexJs.WrappedError IndexJs.UnexpectedUpstreamFormat).
Proof.
  intros Hrun Hans Hok Hjson Hnull Hundef.
  rewrite (index_answered _ _ _ _ _ _ _ Hrun Hans).
  unfold settle_index. rewrite Hok, Hjson. cbn [negb mbind result_bind].
  destruct (index_bad_format_total data Hnull Hundef) as (bad & Hbad & Hcontent & id & Hid).
  rewrite Hbad. cbn [mbind result_bind]. destruct bad; [right; reflexivity|].
  destruct (Hcontent eq_refl) as [content Hc]. rewrite Hc, Hid. left. eexists. reflexivity.
Qed.

Lemma index_guard_is_total_witness :
  let w := Samples.world Samples.null_choice in
  let call := chatWithAI index_js "Hello" Omitted Omitted (Some Samples.index_context) in
  answered w (run w call).1 Samples.null_choice ∧
  ((∃ resp, (run w call).2 = Ok resp) ∨
   (run w call).2 = Err (IndexJs.WrappedError IndexJs.UnexpectedUpstreamFormat)).
Proof.
  intros w call.
  assert (Hans : answered w (run w call).1 Samples.null_choice).
  { eexists. split; [vm_compute; reflexivity | reflexivity]. }
  split; [exact Hans|].
  apply (index_guard_is_total w "Hello" Omitted Omitted (Some Samples.index_context)
           _ _ Samples.null_choice _ (surjective_pairing _) Hans eq_refl eq_refl);
    discriminate.
Defined.

(** X15. When a success response parses to an object without [choices],
    or with [choices] [null] or an empty array, a DeepSeek revision fails
    with the format error. *)
Theorem missing_choices_is_format_error
    rev w message conversationId systemPrompt context t res r fields :
  rev ≠ index_js →
  run w (chatWithAI rev message conversationId systemPrompt context) = (t, res) →
  answered w t r → ok r = true → json r = Ok (VObj fields) →
  assoc "choices" fields = None ∨
  assoc "choices" fields = Some VNull ∨
  assoc "choices" fields = Some (VArr []) →
  res = Err UnexpectedUpstreamFormat.
Proof.
  intros Hrev Hrun Hans Hok Hjson Hchoices.
  apply (format_guard_fires _ _ _ _ _ _ _ _ _ _ Hrev Hrun Hans Hok Hjson).
  unfold DeepSeek.bad_format. cbn [get mbind result_bind].
  destruct Hchoices as [-> | [-> | ->]]; reflexivity.
Qed.

Lemma missing_choices_is_format_error_witness :
  let r := {| status := 200; text := ""; json := Ok (VObj [ ("error", VStr "busy") ]) |} in
  let w := Samples.world r in
  let call := chatWithAI part_001 "Hello" Omitted Omitted (Some Samples.sample_context) in
  answered w (run w call).1 r ∧ (run w call).2 = Err UnexpectedUpstreamFormat.
Proof.
  intros r w call.
  assert (Hans : answered w (run w call).1 r).
  { eexists. split; [vm_compute; reflexivity | reflexivity]. }
  split; [exact Hans|].
  apply (missing_choices_is_format_error part_001 w "Hello" Omitted Omitted
           (Some Samples.sample_context) _ _ r [ ("error", VStr "busy") ]
           ltac:(discriminate) (surjective_pairing _) Hans eq_refl eq_refl).
  left. reflexivity.
Defined.

(** ** [formatError] of [part_000] *)

Lemma assoc_set_field (key key' : string) v fields :
  assoc key' (set_field key v fields) =
  if String.eqb key' key then Some v else assoc key' fields.
Proof.
  induction fields as [|[k x] rest IH]; cbn.
  - destruct (String.eqb key' key); reflexivity.
  - destruct (String.eqb_spec key k) as [->|Hne]; cbn.
    + destruct (String.eqb key' k); reflexivity.
    + rewrite IH. destruct (String.eqb_spec key' k) as [->|Hne'].
      * destruct (String.eqb_spec k key); [congruence | reflexivity].
      * reflexivity.
Qed.

Lemma assoc_not_key (key : string) (fields : list (string * value)) :
  key ∉ fields.*1 → assoc key fields = None.
Proof.
  induction fields as [|[k x] rest IH]; cbn; [reflexivity|].
  intros Hnot. apply not_elem_of_cons in Hnot as [Hne Hrest].
  destruct (String.eqb_spec key k); [congruence | auto].
Qed.

Lemma assoc_spread (key : string) (source target : list (string * value)) :
  NoDup source.*1 →
  assoc key (spread (Some source) target) =
  match assoc key source with Some v => Some v | None => assoc key target end.
Proof.
  unfold spread. cbn [default]. revert target.
  induction source as [|[k x] rest IH]; intros target Hnodup; cbn; [reflexivity|].
  rewrite fmap_cons in Hnodup. cbn [fst] in Hnodup.
  apply NoDup_cons in Hnodup as [Hk Hrest].
  rewrite (IH _ Hrest), assoc_set_field.
  destruct (String.eqb_spec key k) as [->|Hne]; [|reflexivity].
  rewrite (assoc_not_key _ _ Hk). reflexivity.
Qed.

Lemma formatError_run w error :
  run w (Part000.formatError error) =
  ([EConsole LError "GraphQL error:"],
   Ok (let message := or_else (Part000.message error) "An unknown error occurred" in
       if includes message "余额不足" || includes message "Insufficient Balance"
       then VObj [ ("message", VStr "🚫 API 账户余额不足，请充值后再试");
                   ("extensions",
                    VObj (spread (Part000.extensions error)
                            [ ("code", VStr "INSUFFICIENT_BALANCE") ])) ]
       else VObj [ ("message", VStr message);
                   ("extensions",
                    VObj (set_field "timestamp" (VStr (iso_clock w))
                            (spread (Part000.extensions error) []))) ])).
Proof.
  unfold Part000.formatError. cbn -[includes spread set_field or_else].
  destruct (_ || _); reflexivity.
Qed.

(** X16. For an error whose message contains "余额不足" or "Insufficient
    Balance", [formatError] returns the fixed balance message, and
    extensions that keep every extension of the error; the code is
    INSUFFICIENT_BALANCE unless the error's extensions have a [code] of
    their own, which then stays. It logs once and does not throw. *)
Theorem formatError_balance w error :
  let message := or_else (Part000.message error) "An unknown error occurred" in
  let own := λ key, Part000.extensions error ≫= assoc key in
  (∀ ext, Part000.extensions error = Some ext → NoDup ext.*1) →
  contains message "余额不足" ∨ contains message "Insufficient Balance" →
  ∃ ext,
    run w (Part000.formatError error) =
      ([EConsole LError "GraphQL error:"],
       Ok (VObj [ ("message", VStr "🚫 API 账户余额不足，请充值后再试");
                  ("extensions", VObj ext) ])) ∧
    assoc "code" ext = Some (default (VStr "INSUFFICIENT_BALANCE") (own "code")) ∧
    ∀ key, key ≠ "code" → assoc key ext = own key.
Proof.
  intros message own Hnodup Hbal.
  rewrite formatError_run. cbn zeta. fold message.
  assert (Hb : includes message "余额不足" || includes message "Insufficient Balance" = true).
  { apply orb_true_iff. destruct Hbal as [H|H]; [left | right]; apply includes_contains, H. }
  rewrite Hb. eexists. split; [reflexivity|]. unfold own.
  destruct (Part000.extensions error) as [source|] eqn:Hext; cbn [mbind option_bind].
  - specialize (Hnodup source eq_refl). split.
    + rewrite (assoc_spread _ _ _ Hnodup). destruct (assoc "code" source); reflexivity.
    + intros key Hkey. rewrite (assoc_spread _ _ _ Hnodup).
      destruct (assoc key source); [reflexivity|]. cbn.
      destruct (String.eqb_spec key "code"); [congruence | reflexivity].
  - split; [reflexivity|]. intros key Hkey. cbn.
    destruct (String.eqb_spec key "code"); [congruence | reflexivity].
Qed.

Lemma formatError_balance_witness :
  let error := {| Part000.message := Some "upstream: Insufficient Balance";
                  Part000.extensions := Some [ ("code", VStr "PAYMENT");
                                               ("path", VStr "chatWithAI") ] |} in
  ∃ ext,
    run (Samples.world Samples.greeting) (Part000.formatError error) =
      ([EConsole LError "GraphQL error:"],
       Ok (VObj [ ("message", VStr "🚫 API 账户余额不足，请充值后再试");
                  ("extensions", VObj ext) ])) ∧
    assoc "code" ext = Some (VStr "PAYMENT") ∧
    assoc "path" ext = Some (VStr "chatWithAI").
Proof.
  intros error.
  destruct (formatError_balance (Samples.world Samples.greeting) error)
    as (ext & Hrun & Hcode & Hkeep).
  - intros ext [= <-]. apply (bool_decide_unpack _). vm_compute. exact I.
  - right. apply includes_contains. vm_compute. reflexivity.
  - exists ext. split; [exact Hrun|]. split; [exact Hcode|].
    apply (Hkeep "path"). discriminate.
Defined.



(** ** The system prompt and the diagnostic query *)

(** X18. In the outbound body of a DeepSeek revision the messages are: the
    default system prompt and the user message when [systemPrompt] is left
    out; the given prompt and the user message when it is a non-empty
    string; the user message alone when it is [null] or the empty string. *)
Theorem system_prompt_cases
    rev w message conversationId systemPrompt context t res req :
  rev ≠ index_js →
  run w (chatWithAI rev message conversationId systemPrompt context) = (t, res) →
  req ∈ fetches t →
  let entry := λ r c, VObj [ ("role", VStr r); ("content", VStr c) ] in
  get (body req) "messages" =
  Ok (VArr (match systemPrompt with
            | Omitted => [ entry "system" "You are a helpful assistant.";
                           entry "user" message ]
            | Null => [ entry "user" message ]
            | Given s => if String.eqb s "" then [ entry "user" message ]
                         else [ entry "system" s; entry "user" message ]
            end)).
Proof.
  intros Hrev [Ht Hres]%run_pair Hin entry. subst t.
  destruct (deepseek_single_call _ _ _ _ _ _ _ Hrev Hin) as (c & e & _ & _ & _ & -> & _).
  destruct systemPrompt as [| |s]; try reflexivity.
  unfold outbound, DeepSeek.request, DeepSeek.requestData, DeepSeek.build_messages.
  cbn [body get assoc String.eqb Ascii.eqb Bool.eqb default DeepSeek.with_default
       arg_value truthy].
  destruct (String.eqb s ""); reflexivity.
Qed.

Lemma system_prompt_cases_witness :
  let w := Samples.world Samples.greeting in
  let call := chatWithAI part_001 "Hello" Omitted (Given "") (Some Samples.sample_context) in
  ∃ req, req ∈ fetches (run w call).1 ∧
    get (body req) "messages"
    = Ok (VArr [ VObj [ ("role", VStr "user"); ("content", VStr "Hello") ] ]).
Proof.
  intros w call.
  exists (outbound part_001 Samples.sample_context Samples.sample_env "Hello" (Given "")).
  assert (Hin : outbound part_001 Samples.sample_context Samples.sample_env "Hello" (Given "")
                ∈ fetches (run w call).1).
  { vm_compute. apply list_elem_of_here. }
  split; [exact Hin|].
  apply (system_prompt_cases part_001 w "Hello" Omitted (Given "")
           (Some Samples.sample_context) (run w call).1 (run w call).2 _
           ltac:(discriminate) (surjective_pairing _) Hin).
Defined.

(** X19. [envCheck] agrees with the resolver of its revision: it reports
    [hasApiKey: true] exactly when [chatWithAI], given the same context,
    gets as far as its outbound call, that is, when the context has an
    [env] object with a non-empty [DEEPSEEK_API_KEY]. *)
Theorem envCheck_agrees_with_resolver w message conversationId systemPrompt context :
  (hasApiKey (Part001.envCheck context) = true ↔
   fetches (trace_of w (chatWithAI part_001 message conversationId systemPrompt context))
   ≠ []) ∧
  (hasApiKey (Part001.envCheck context) = true ↔
   ∃ c e key, context = Some c ∧ env c = Some e ∧
              e !! "DEEPSEEK_API_KEY" = Some key ∧ key ≠ "").
Proof.
  assert (Hrev : part_001 ≠ index_js) by discriminate.
  assert (Hchar : hasApiKey (Part001.envCheck context) = true ↔
    ∃ c e key, context = Some c ∧ env c = Some e ∧
               e !! "DEEPSEEK_API_KEY" = Some key ∧ key ≠ "").
  { unfold Part001.envCheck. split.
    - destruct context as [c|]; [|discriminate].
      destruct (env c) as [e|] eqn:He; [|discriminate]. cbn [hasApiKey].
      destruct (e !! "DEEPSEEK_API_KEY") as [key|] eqn:Hkey; [|discriminate].
      cbn [binding truthy]. intros H%negb_true_iff%String.eqb_neq. eauto 10.
    - intros (c & e & key & -> & -> & -> & Hne). cbn [hasApiKey binding truthy].
      apply negb_true_iff, String.eqb_neq, Hne. }
  split; [|exact Hchar]. rewrite Hchar. split.
  - intros (c & e & key & -> & He & Hkey & Hne).
    rewrite (deepseek_fetches _ _ _ _ _ _ e Hrev He).
    unfold is_set. cbn [API_KEY]. rewrite He. cbn [mbind option_bind]. rewrite Hkey.
    cbn [binding truthy]. apply String.eqb_neq in Hne. rewrite Hne. discriminate.
  - intros Hcall. destruct context as [c|].
    + destruct (env c) as [e|] eqn:He.
      * rewrite (deepseek_fetches _ _ _ _ _ _ e Hrev He) in Hcall.
        unfold is_set in Hcall. cbn [API_KEY] in Hcall. rewrite He in Hcall.
        cbn [mbind option_bind] in Hcall.
        destruct (e !! "DEEPSEEK_API_KEY") as [key|] eqn:Hkey; [|contradiction].
        cbn [binding truthy] in Hcall.
        destruct (String.eqb_spec key ""); [contradiction | eauto 10].
      * destruct (deepseek_no_env part_001 w message conversationId systemPrompt
                    (Some c) Hrev) as [H _]; [intros ? [= <-]; exact He | contradiction].
    + destruct (deepseek_no_env part_001 w message conversationId systemPrompt None Hrev)
        as [H _]; [intros ? [=] | contradiction].
Qed.
